(** * translate-docs-script: the incremental synchronisation pipeline

    A shallow embedding of [src/main.ts] (and of the change detector of the
    second variant of the script) and the properties of the pipeline:
    change detection against the stored fingerprints, per-file translation,
    output writing and the commit of the new fingerprint document.

    The script is sequential: every request is awaited before the next
    statement runs.  A run is therefore a pure function of the world it
    runs in, and yields the chronological list of requests it made
    together with the way it ended. *)

From Stdlib Require Import String Ascii ZArith List Bool.
From stdpp Require Import gmap strings list pretty.

#[local] Set Warnings "-register-all".
#[local] Open Scope string_scope.
#[local] Open Scope list_scope.

(** ** Values *)

(** A value produced by [JSON.parse].  The script never inspects a number,
    so integers stand for all of them. *)
Inductive JSON :=
| JNull
| JBool (b : bool)
| JNumber (n : Z)
| JString (s : string)
| JArray (items : list JSON)
| JObject (fields : gmap string JSON).

(** The text of a file as [JSON.parse] reads it: a syntax error, or the
    serialisation of a value. *)
Inductive FileText :=
| NotJSON
| Serialized (v : JSON).

(** The text handed to [Deno.writeTextFile]: a translated document, or
    [JSON.stringify(newHashes, null, 2)] for a record of strings.  The
    latter is kept symbolic; parsing it gives the record back. *)
Inductive Data :=
| Text (s : string)
| JSON_stringify (newHashes : gmap string string).

(** interface FileInfo (main.ts, lines 71-75) *)
Record FileInfo := {
  path : string;
  sha : string;
  content_url : string;
}.

(** An entry of the recursive tree listing; every field may be missing. *)
Record TreeItem := {
  item_path : option string;
  item_type : option string;
  item_sha : option string;
}.

(** The response of the generative service: candidates, each with the parts
    of its content; a part need not carry text. *)
Record Part := { text : option string }.
Record Candidate := { parts : list Part }.
Record GenerateContentResponse := { candidates : option (list Candidate) }.

(** ** Effects *)

(** What a [catch] clause can see of a thrown value. *)
Inductive Error :=
| NotFound      (* Deno.errors.NotFound *)
| SyntaxError   (* JSON.parse *)
| TypeError     (* property read on null *)
| Failure.      (* any other rejected request *)

(** The requests of a run, in the order they are made.  Console output is
    not recorded. *)
Inductive Event :=
| ReposGet (owner repo : string)
| GitGetTree (owner repo tree_sha : string)
| ReadTextFile (file : string)
| Fetch (url : string)
| GenerateContent (project location model : string) (maxOutputTokens : Z)
    (request : string)
| WriteTextFile (file : string) (data : Data) (ok : bool).

(** How a computation ends: with a value, with an exception that travels
    to the nearest [catch], or with [Deno.exit], which no [catch] stops. *)
Inductive Result (A : Type) :=
| Return (a : A)
| Throw (e : Error)
| Exit (code : Z).

Arguments Return {A} a.
Arguments Throw {A} e.
Arguments Exit {A} code.

Definition IO (A : Type) : Type := list Event * Result A.

Definition ret {A} (a : A) : IO A := ([], Return a).
Definition throw {A} (e : Error) : IO A := ([], Throw e).
Definition Deno_exit {A} (code : Z) : IO A := ([], Exit code).
Definition emit (e : Event) : IO unit := ([e], Return tt).

Definition bind {A B} (m : IO A) (k : A → IO B) : IO B :=
  match m with
  | (t, Return a) => let '(t', r) := k a in (t ++ t', r)
  | (t, Throw e) => (t, Throw e)
  | (t, Exit code) => (t, Exit code)
  end.

(** try { body } catch (error) { handler error } *)
Definition try_catch {A} (body : IO A) (handler : Error → IO A) : IO A :=
  match body with
  | (t, Throw e) => let '(t', r) := handler e in (t ++ t', r)
  | other => other
  end.

Declare Scope io_scope.
Delimit Scope io_scope with io.
Notation "'let!' x ':=' m 'in' k" := (bind m (fun x => k))
  (at level 10, x pattern, m at level 100, k at level 200) : io_scope.
Notation "m ';;;' k" := (bind m (fun _ => k))
  (at level 100, k at level 200, right associativity) : io_scope.
#[local] Open Scope io_scope.

(** for (const x of xs) { body x } *)
Fixpoint for_of {A} (xs : list A) (body : A → IO unit) : IO unit :=
  match xs with
  | [] => ret tt
  | x :: rest => body x ;;; for_of rest body
  end.

(** xs.filter(keep), for a callback that may throw. *)
Fixpoint Array_filter {A} (keep : A → IO bool) (xs : list A) : IO (list A) :=
  match xs with
  | [] => ret []
  | x :: rest =>
      let! b := keep x in
      let! kept := Array_filter keep rest in
      ret (if b then x :: kept else kept)
  end.

(** The exit status of the process: an exception that reaches the top level
    ends it with status 1, running off the end of the module with 0. *)
Definition exit_status {A} (r : Result A) : Z :=
  match r with
  | Return _ => 0
  | Throw _ => 1
  | Exit code => code
  end.

(** ** JavaScript primitives used by the script *)

(** [!v] is false for a value of [Deno.env.get]: a set, non-empty string. *)
Definition truthy (v : option string) : bool :=
  match v with
  | Some s => negb (s =? "")
  | None => false
  end.

(** The string behind a value narrowed by a truthiness test. *)
Definition narrowed (v : option string) : string := default "" v.

Definition startsWith (s searchString : string) : bool :=
  String.prefix searchString s.

Definition endsWith (s searchString : string) : bool :=
  String.prefix (String.rev searchString) (String.rev s).

Definition LF : string := String (ascii_of_nat 10) EmptyString.

(** xs.join(separator): a missing element counts as the empty string. *)
Definition join (separator : string) (xs : list (option string)) : string :=
  String.concat separator (List.map narrowed xs).

(** The index a property key denotes in an array-like of length [len]:
    the key must be the decimal numeral of a position below [len]. *)
Definition array_index (key : string) (len : nat) : option nat :=
  List.find (fun i => pretty i =? key) (seq 0 len).

(** What obj[key] finds in a value other than [null].  [None] stands for
    [undefined] and for the members inherited from a prototype, which are
    functions: neither is a string.  A string is indexed by its
    characters. *)
Definition member (obj : JSON) (key : string) : option JSON :=
  match obj with
  | JNull | JBool _ | JNumber _ => None
  | JString s =>
      if key =? "length" then Some (JNumber (Z.of_nat (String.length s)))
      else i ← array_index key (String.length s);
           Some (JString (substring i 1 s))
  | JArray items =>
      if key =? "length" then Some (JNumber (Z.of_nat (length items)))
      else i ← array_index key (length items); items !! i
  | JObject fields => fields !! key
  end.

(** obj[key]: reading a property of [null] throws. *)
Definition get (obj : JSON) (key : string) : IO (option JSON) :=
  match obj with
  | JNull => throw TypeError
  | _ => ret (member obj key)
  end.

(** value !== s, for a string [s]. *)
Definition strict_ne (value : option JSON) (s : string) : bool :=
  match value with
  | Some (JString s') => negb (s' =? s)
  | _ => true
  end.

(** JSON.parse(text) *)
Definition JSON_parse (text : FileText) : IO JSON :=
  match text with
  | NotJSON => throw SyntaxError
  | Serialized v => ret v
  end.

(** ** The world a run sees *)

Record World := {
  (* Deno.env.get, after the .env file has been loaded *)
  Deno_env_get : string → option string;
  (* octokit.rest.repos.get: the default branch, unless the request fails *)
  repos_get : string → string → option string;
  (* octokit.rest.git.getTree with recursive: "true" *)
  git_getTree : string → string → string → option (list TreeItem);
  (* Deno.readTextFile *)
  Deno_readTextFile : string → Error + FileText;
  (* fetch(url).then((res) => res.text()) *)
  fetch : string → option string;
  (* generateContent of the model (project, location, model,
     maxOutputTokens) on a request with one user part *)
  generateContent :
    string → string → string → Z → string → option GenerateContentResponse;
  (* whether Deno.writeTextFile succeeds *)
  Deno_writeTextFile : string → Data → bool;
}.

(** ** The script (src/main.ts) *)

Section Script.

Variable w : World.

(** await Deno.writeTextFile(file, data) *)
Definition writeTextFile (file : string) (data : Data) : IO unit :=
  let ok := Deno_writeTextFile w file data in
  emit (WriteTextFile file data ok) ;;;
  if ok then ret tt else throw Failure.

(** await Deno.readTextFile(file) *)
Definition readTextFile (file : string) : IO FileText :=
  emit (ReadTextFile file) ;;;
  match Deno_readTextFile w file with
  | inl e => throw e
  | inr text => ret text
  end.

(** await fetch(url).then((res) => res.text()) *)
Definition fetch_text (url : string) : IO string :=
  emit (Fetch url) ;;;
  match fetch w url with
  | Some body => ret body
  | None => throw Failure
  end.

(** main.ts, lines 18-26 *)
Definition saveHashToJson (data : Data) (hashFilePath : string) : IO unit :=
  try_catch
    (writeTextFile hashFilePath data)
    (fun error => Deno_exit 1).

(** The predicate of the filter on lines 51-57. *)
Definition wanted (dir extention : string) (item : TreeItem) : bool :=
  match item_path item with
  | Some p =>
      startsWith p dir
      && bool_decide (item_type item = Some "blob")
      && endsWith p extention
      && bool_decide (item_sha item ≠ None)
  | None => false
  end.

(** main.ts, lines 28-69; [dir] is the parameter [path] of the source. *)
Definition getFilesInDirectory (owner repo dir : string)
  : IO (list FileInfo) :=
  try_catch
    (let extention := Deno_env_get w "TARGET_FILE_EXTENSION" in
     if negb (truthy extention) then Deno_exit 1 else
     let! defaultBranch :=
       (emit (ReposGet owner repo) ;;;
        match repos_get w owner repo with
        | Some branch => ret branch
        | None => throw Failure
        end) in
     let! tree :=
       (emit (GitGetTree owner repo defaultBranch) ;;;
        match git_getTree w owner repo defaultBranch with
        | Some tree => ret tree
        | None => throw Failure
        end) in
     let files := List.filter (wanted dir (narrowed extention)) tree in
     ret (List.map (fun file =>
            {| path := narrowed (item_path file);
               sha := narrowed (item_sha file);
               content_url :=
                 "https://raw.githubusercontent.com/" +:+ owner +:+ "/"
                 +:+ repo +:+ "/" +:+ defaultBranch +:+ "/"
                 +:+ narrowed (item_path file) |}) files))
    (fun error => Deno_exit 1).

(** main.ts, lines 77-96 *)
Definition loadAndDetectDiffs (repoFiles : list FileInfo)
    (hashFilePath : string) : IO (list FileInfo) :=
  try_catch
    (let! hashData := readTextFile hashFilePath in
     let! existingsHashes := JSON_parse hashData in
     let! changedFiles :=
       Array_filter (fun file =>
         let! stored := get existingsHashes (path file) in
         ret (strict_ne stored (sha file))) repoFiles in
     ret changedFiles)
    (fun error =>
       match error with
       | NotFound => ret repoFiles
       | _ => Deno_exit 1
       end).

(** main.ts, lines 98-135.  [None] is the [undefined] of the two bare
    [return;] statements. *)
Definition translateText (content_url : string)
  : IO (option (list (option string))) :=
  let! content := fetch_text content_url in
  let prompt_url := Deno_env_get w "PROMPT_URL" in
  let projectId := Deno_env_get w "VERTEX_AI_PROJECT_ID" in
  let location := Deno_env_get w "VERTEX_AI_LOCATION" in
  let model := Deno_env_get w "VERTEX_AI_MODEL" in
  if negb (truthy projectId) || negb (truthy location)
     || negb (truthy model) || negb (truthy prompt_url)
  then ret None else
  let! prompt := fetch_text (narrowed prompt_url) in
  let request := prompt +:+ LF +:+ content in
  let! resp :=
    (emit (GenerateContent (narrowed projectId) (narrowed location)
             (narrowed model) 8192 request) ;;;
     match generateContent w (narrowed projectId) (narrowed location)
             (narrowed model) 8192 request with
     | Some resp => ret resp
     | None => throw Failure
     end) in
  match candidates resp with
  | Some ((_ :: _) as cs) =>
      let extractedTexts :=
        flat_map (fun candidate => List.map text (parts candidate)) cs in
      ret (Some extractedTexts)
  | _ => ret None
  end.

(** main.ts, lines 137-145 *)
Definition writeFile (content filePath : string) : IO unit :=
  try_catch
    (writeTextFile filePath (Text content))
    (fun error => Deno_exit 1).

(** The body of the loop on lines 175-182. *)
Definition translate_and_write (file : FileInfo) : IO unit :=
  let! translatedContent := translateText (content_url file) in
  match translatedContent with
  | Some texts => writeFile (join LF texts) (path file)
  | None => ret tt
  end.

(** The reduction on lines 185-188. *)
Definition newHashes (changedFiles : list FileInfo) : gmap string string :=
  fold_left (fun acc file => <[path file := sha file]> acc) changedFiles ∅.

(** main.ts, lines 173-192: the branch taken for a non-empty change set. *)
Definition process_and_commit (changedFiles : list FileInfo)
    (hashFilePath : string) : IO unit :=
  for_of changedFiles translate_and_write ;;;
  saveHashToJson (JSON_stringify (newHashes changedFiles)) hashFilePath ;;;
  Deno_exit 0.

(** main.ts, lines 170-196: what [main] does with the listing. *)
Definition synchronize (filesInRepo : list FileInfo)
    (hashFilePath : string) : IO unit :=
  let! changedFiles := loadAndDetectDiffs filesInRepo hashFilePath in
  if (0 <? length changedFiles)%nat then
    process_and_commit changedFiles hashFilePath
  else
    Deno_exit 0.

(** main.ts, lines 147-197.  [getFilesInDirectory] returns an array or
    ends the process, so the test on line 165 never fires. *)
Definition main : IO unit :=
  let owner := Deno_env_get w "GH_OWNER" in
  let repo := Deno_env_get w "GH_REPO" in
  let directoryPath := Deno_env_get w "TARGET_DIRECTORY_PATH" in
  let hashFilePath := Deno_env_get w "HASH_FILE_PATH" in
  if negb (truthy owner) || negb (truthy repo)
     || negb (truthy directoryPath) || negb (truthy hashFilePath)
  then Deno_exit 1 else
  let! filesInRepo :=
    getFilesInDirectory (narrowed owner) (narrowed repo)
      (narrowed directoryPath) in
  synchronize filesInRepo (narrowed hashFilePath).

(** The module: lines 5-16, then [await main()].  The request of line 16
    is not awaited and its outcome is not used; it is left out. *)
Definition script : IO unit :=
  let githubToken := Deno_env_get w "GH_ACCESS_TOKEN" in
  if negb (truthy githubToken) then Deno_exit 1 else
  main.

End Script.

(** ** The second variant of the script (src/unnamed/part_000) *)

Module Part000.
Section Script.

Variable w : World.

(** part_000, lines 68-82: every error of the load is logged and answered
    with an empty change set. *)
Definition loadAndDetectDiffs (repoFiles : list FileInfo)
    (hashFilePath : string) : IO (list FileInfo) :=
  try_catch
    (let! hashData := readTextFile w hashFilePath in
     let! exitingsHashes := JSON_parse hashData in
     let! changedFiles :=
       Array_filter (fun file =>
         let! stored := get exitingsHashes (path file) in
         ret (strict_ne stored (sha file))) repoFiles in
     ret changedFiles)
    (fun error => ret []).

(** [JSON.stringify] of the response of the service, as the runtime
    prints it. *)
Variable JSON_stringify_response : GenerateContentResponse → string.

(** part_000, lines 11-18: a failed write is logged, nothing more. *)
Definition saveHashToJson (data : Data) (hashFilePath : string) : IO unit :=
  try_catch
    (writeTextFile w hashFilePath data)
    (fun error => ret tt).

(** part_000, lines 20-60.  [None] is the [undefined] the function returns
    when the extension is not set and after a logged error. *)
Definition getFilesInDirectory (owner repo dir : string)
  : IO (option (list FileInfo)) :=
  try_catch
    (let extention := Deno_env_get w "TARGET_FILE_EXTENSION" in
     if negb (truthy extention) then ret None else
     let! defaultBranch :=
       (emit (ReposGet owner repo) ;;;
        match repos_get w owner repo with
        | Some branch => ret branch
        | None => throw Failure
        end) in
     let! tree :=
       (emit (GitGetTree owner repo defaultBranch) ;;;
        match git_getTree w owner repo defaultBranch with
        | Some tree => ret tree
        | None => throw Failure
        end) in
     let files := List.filter (wanted dir (narrowed extention)) tree in
     ret (Some (List.map (fun file =>
            {| path := narrowed (item_path file);
               sha := narrowed (item_sha file);
               content_url :=
                 "https://raw.githubusercontent.com/" +:+ owner +:+ "/"
                 +:+ repo +:+ "/" +:+ defaultBranch +:+ "/"
                 +:+ narrowed (item_path file) |}) files)))
    (fun error => ret None).

(** part_000, lines 84-112: the whole response is returned, serialised. *)
Definition translateText (content_url : string) : IO (option string) :=
  let! content := fetch_text w content_url in
  let prompt_url := Deno_env_get w "PROMPT_URL" in
  let projectId := Deno_env_get w "VERTEX_AI_PROJECT_ID" in
  let location := Deno_env_get w "VERTEX_AI_LOCATION" in
  let model := Deno_env_get w "VERTEX_AI_MODEL" in
  if negb (truthy projectId) || negb (truthy location)
     || negb (truthy model) || negb (truthy prompt_url)
  then ret None else
  let! prompt := fetch_text w (narrowed prompt_url) in
  let request := prompt +:+ LF +:+ content in
  let! resp :=
    (emit (GenerateContent (narrowed projectId) (narrowed location)
             (narrowed model) 8192 request) ;;;
     match generateContent w (narrowed projectId) (narrowed location)
             (narrowed model) 8192 request with
     | Some resp => ret resp
     | None => throw Failure
     end) in
  ret (Some (JSON_stringify_response resp)).

(** part_000, lines 114-121 *)
Definition writeFile (content filePath : string) : IO unit :=
  try_catch
    (writeTextFile w filePath (Text content))
    (fun error => ret tt).

(** The body of the loop on lines 145-152. *)
Definition translate_and_write (file : FileInfo) : IO unit :=
  let! translatedContent := translateText (content_url file) in
  match translatedContent with
  | Some content => writeFile content (path file)
  | None => ret tt
  end.

(** part_000, lines 123-160.  The record is serialised without
    indentation here; it parses to the same mapping. *)
Definition main : IO unit :=
  let owner := Deno_env_get w "GITHUB_OWNER" in
  let repo := Deno_env_get w "GITHUB_REPOSITORY" in
  let directoryPath := Deno_env_get w "TARGET_DIRECTORY_PATH" in
  let hashFilePath := Deno_env_get w "HASH_FILE_PATH" in
  if negb (truthy owner) || negb (truthy repo)
     || negb (truthy directoryPath) || negb (truthy hashFilePath)
  then ret tt else
  let! filesInRepo :=
    getFilesInDirectory (narrowed owner) (narrowed repo)
      (narrowed directoryPath) in
  match filesInRepo with
  | None => ret tt
  | Some filesInRepo =>
      let! changedFiles :=
        loadAndDetectDiffs filesInRepo (narrowed hashFilePath) in
      for_of changedFiles translate_and_write ;;;
      saveHashToJson (JSON_stringify (newHashes changedFiles))
        (narrowed hashFilePath)
  end.

End Script.
End Part000.

(** ** Observations on a run *)

(** Requests that fetch, transform or write a file. *)
Definition processes (e : Event) : bool :=
  match e with
  | Fetch _ | GenerateContent _ _ _ _ _ | WriteTextFile _ _ _ => true
  | _ => false
  end.

(** A run that fetched, transformed and wrote nothing. *)
Definition idle (t : list Event) : Prop :=
  Forall (fun e => processes e = false) t.

(** The fingerprint record a trace committed last, with the file it went
    to. *)
Fixpoint committed (t : list Event) : option (string * gmap string string) :=
  match t with
  | [] => None
  | e :: rest =>
      match committed rest, e with
      | Some c, _ => Some c
      | None, WriteTextFile file (JSON_stringify r) true => Some (file, r)
      | None, _ => None
      end
  end.

(** The object [JSON.parse] makes of a serialised record of strings. *)
Definition parsed_record (r : gmap string string) : JSON :=
  JObject (JString <$> r).

(** The world the next run finds after a run that made the requests [t] and
    ended with status 0.  Such a run either wrote nothing or wrote the
    fingerprint document last; everything else the script reads is outside
    its reach. *)
Definition next_world (w : World) (t : list Event) : World :=
  match committed t with
  | Some (hashFilePath, r) =>
      {| Deno_env_get := Deno_env_get w;
         repos_get := repos_get w;
         git_getTree := git_getTree w;
         Deno_readTextFile := fun file =>
           if decide (file = hashFilePath)
           then inr (Serialized (parsed_record r))
           else Deno_readTextFile w file;
         fetch := fetch w;
         generateContent := generateContent w;
         Deno_writeTextFile := Deno_writeTextFile w |}
  | None => w
  end.

(** The world the next run finds after a run of the script. *)
Definition after_run (w : World) : World := next_world w (script w).1.

(** The settings [main] and the module need, all present. *)
Definition configured (w : World)
    (owner repo directoryPath hashFilePath : string) : Prop :=
  truthy (Deno_env_get w "GH_ACCESS_TOKEN") = true
  ∧ Deno_env_get w "GH_OWNER" = Some owner ∧ owner ≠ ""
  ∧ Deno_env_get w "GH_REPO" = Some repo ∧ repo ≠ ""
  ∧ Deno_env_get w "TARGET_DIRECTORY_PATH" = Some directoryPath
  ∧ directoryPath ≠ ""
  ∧ Deno_env_get w "HASH_FILE_PATH" = Some hashFilePath
  ∧ hashFilePath ≠ "".

(** A trace in front of a computation. *)
Definition prefixed {A} (t : list Event) (m : IO A) : IO A :=
  (t ++ m.1, m.2).

(** Whether a file counts as changed against a stored document. *)
Definition changed (stored : JSON) (file : FileInfo) : bool :=
  strict_ne (member stored (path file)) (sha file).

(** The write of a fingerprint document. *)
Definition is_commit (e : Event) : bool :=
  match e with
  | WriteTextFile _ (JSON_stringify _) _ => true
  | _ => false
  end.

(** A write of a translated document that failed. *)
Definition failed_output (e : Event) : bool :=
  match e with
  | WriteTextFile _ (Text _) false => true
  | _ => false
  end.

(** The service is reached for the file behind [url] and answers
    [request] with [resp]: the file and the prompt can be fetched and the
    settings of the service are present. *)
Definition responds (w : World) (url request : string)
    (resp : GenerateContentResponse) : Prop :=
  ∃ content prompt,
    fetch w url = Some content
    ∧ truthy (Deno_env_get w "VERTEX_AI_PROJECT_ID") = true
    ∧ truthy (Deno_env_get w "VERTEX_AI_LOCATION") = true
    ∧ truthy (Deno_env_get w "VERTEX_AI_MODEL") = true
    ∧ truthy (Deno_env_get w "PROMPT_URL") = true
    ∧ fetch w (narrowed (Deno_env_get w "PROMPT_URL")) = Some prompt
    ∧ request = prompt +:+ LF +:+ content
    ∧ generateContent w
        (narrowed (Deno_env_get w "VERTEX_AI_PROJECT_ID"))
        (narrowed (Deno_env_get w "VERTEX_AI_LOCATION"))
        (narrowed (Deno_env_get w "VERTEX_AI_MODEL")) 8192 request
      = Some resp.

(** The requests of a translation that reaches the service. *)
Definition translation_requests (w : World) (url request : string)
  : list Event :=
  [Fetch url;
   Fetch (narrowed (Deno_env_get w "PROMPT_URL"));
   GenerateContent
     (narrowed (Deno_env_get w "VERTEX_AI_PROJECT_ID"))
     (narrowed (Deno_env_get w "VERTEX_AI_LOCATION"))
     (narrowed (Deno_env_get w "VERTEX_AI_MODEL")) 8192 request].

(** The text parts of a response, candidates in order and within each
    candidate its parts in order. *)
Definition text_parts (cs : list Candidate) : list (option string) :=
  flat_map (fun candidate => List.map text (parts candidate)) cs.

(** The result text in the words of the specification: the concatenation
    of every text part of every candidate, in response order. *)
Definition concatenation_of_text_parts (cs : list Candidate) : string :=
  String.concat "" (List.map narrowed (text_parts cs)).

(** A request a run makes for [file]: the fetch of its content or of the
    prompt, the call of the service, or the write of its translation. *)
Definition concerns (w : World) (file : FileInfo) (e : Event) : Prop :=
  match e with
  | Fetch url =>
      url = content_url file
      ∨ url = narrowed (Deno_env_get w "PROMPT_URL")
  | GenerateContent _ _ _ _ _ => True
  | WriteTextFile target data _ =>
      target = path file ∧ ∃ s, data = Text s
  | _ => False
  end.

(** The files a trace wrote translations to, in the order of the
    writes, failed ones included. *)
Definition output_targets (t : list Event) : list string :=
  flat_map (fun e =>
    match e with
    | WriteTextFile target (Text _) _ => [target]
    | _ => []
    end) t.

(** The settings of the second variant of the script, all present. *)
Definition Part000_configured (w : World)
    (owner repo directoryPath hashFilePath : string) : Prop :=
  Deno_env_get w "GITHUB_OWNER" = Some owner ∧ owner ≠ ""
  ∧ Deno_env_get w "GITHUB_REPOSITORY" = Some repo ∧ repo ≠ ""
  ∧ Deno_env_get w "TARGET_DIRECTORY_PATH" = Some directoryPath
  ∧ directoryPath ≠ ""
  ∧ Deno_env_get w "HASH_FILE_PATH" = Some hashFilePath
  ∧ hashFilePath ≠ "".


(** ** Sample worlds *)

Definition sample_env : gmap string string :=
  list_to_map
    [("GH_ACCESS_TOKEN", "token"); ("GH_OWNER", "owner"); ("GH_REPO", "repo");
     ("TARGET_DIRECTORY_PATH", "docs"); ("TARGET_FILE_EXTENSION", ".md");
     ("HASH_FILE_PATH", "hashes.json"); ("PROMPT_URL", "prompt");
     ("VERTEX_AI_PROJECT_ID", "project"); ("VERTEX_AI_LOCATION", "location");
     ("VERTEX_AI_MODEL", "model")].

Definition blob (p s : string) : TreeItem :=
  {| item_path := Some p; item_type := Some "blob"; item_sha := Some s |}.

Definition raw_file (p s : string) : FileInfo :=
  {| path := p; sha := s; content_url := "raw/" +:+ p |}.

Definition answer (texts : list string) : option (list Candidate) :=
  Some [ {| parts := List.map (fun s => {| text := Some s |}) texts |} ].

(** A fully configured world: the repository holds [tree], the fingerprint
    file reads as [document], every URL serves its own name as body, the
    service answers a request with [service request], and a write succeeds
    on the files [writable] accepts. *)
Definition sample_world (tree : list TreeItem) (document : Error + FileText)
    (service : string → option (list Candidate))
    (writable : string → bool) : World :=
  {| Deno_env_get := fun name => sample_env !! name;
     repos_get := fun _ _ => Some "main";
     git_getTree := fun _ _ _ => Some tree;
     Deno_readTextFile := fun _ => document;
     fetch := fun url => Some url;
     generateContent := fun _ _ _ _ request =>
       Some {| candidates := service request |};
     Deno_writeTextFile := fun file _ => writable file |}.

Definition docs_tree : list TreeItem :=
  [blob "docs/a.md" "sha1"; blob "docs/b.md" "sha2"; blob "src/c.md" "sha3"].

Definition docs_a : FileInfo :=
  {| path := "docs/a.md"; sha := "sha1";
     content_url :=
       "https://raw.githubusercontent.com/owner/repo/main/docs/a.md" |}.

Definition docs_b : FileInfo :=
  {| path := "docs/b.md"; sha := "sha2";
     content_url :=
       "https://raw.githubusercontent.com/owner/repo/main/docs/b.md" |}.

(** What [getFilesInDirectory] makes of [docs_tree]. *)
Definition docs_listing : list FileInfo := [docs_a; docs_b].

(** The request a sample world sends for a file. *)
Definition request_for (f : FileInfo) : string :=
  "prompt" +:+ LF +:+ content_url f.

(** [docs/a.md] is recorded with its current fingerprint, [docs/b.md] is
    not recorded. *)
Definition tracked_world : World :=
  sample_world docs_tree
    (inr (Serialized (JObject {[ "docs/a.md" := JString "sha1" ]})))
    (fun _ => answer ["translated"]) (fun _ => true).

(** No fingerprint document yet. *)
Definition fresh_world : World :=
  sample_world docs_tree (inl NotFound)
    (fun _ => answer ["translated"]) (fun _ => true).

(** The fingerprint document is not JSON. *)
Definition garbled_world : World :=
  sample_world docs_tree (inr NotJSON)
    (fun _ => answer ["translated"]) (fun _ => true).

(** Every listed file is recorded with its current fingerprint. *)
Definition settled_world : World :=
  sample_world docs_tree
    (inr (Serialized (JObject {[ "docs/a.md" := JString "sha1";
                                 "docs/b.md" := JString "sha2" ]})))
    (fun _ => answer ["translated"]) (fun _ => true).

(** No fingerprint document, and [docs/b.md] cannot be written. *)
Definition readonly_world : World :=
  sample_world docs_tree (inl NotFound)
    (fun _ => answer ["translated"])
    (fun file => negb (file =? "docs/b.md")).

(** The service answers with one candidate of two parts. *)
Definition two_parts_world : World :=
  sample_world docs_tree (inl NotFound)
    (fun _ => answer ["first"; "second"]) (fun _ => true).

(** No fingerprint document; the service has no candidate for
    [docs/b.md]. *)
Definition skipping_world : World :=
  sample_world docs_tree (inl NotFound)
    (fun request =>
       if request =? request_for docs_b then Some []
       else answer ["translated"])
    (fun _ => true).

(** The scenario of the specification: [a.md] is recorded with its
    current fingerprint, [b.md] is new. *)
Definition scenario_world : World :=
  sample_world [] (inr (Serialized (JObject {[ "a.md" := JString "sha1" ]})))
    (fun _ => answer ["translated"]) (fun _ => true).

Definition scenario_listing : list FileInfo :=
  [raw_file "a.md" "sha1"; raw_file "b.md" "sha2"].

(** [w] with the environment [env]. *)
Definition with_env (env : gmap string string) (w : World) : World :=
  {| Deno_env_get := fun name => env !! name;
     repos_get := repos_get w;
     git_getTree := git_getTree w;
     Deno_readTextFile := Deno_readTextFile w;
     fetch := fetch w;
     generateContent := generateContent w;
     Deno_writeTextFile := Deno_writeTextFile w |}.

(** [w] with the given answers of the listing service. *)
Definition with_listing (branch : option string)
    (tree : option (list TreeItem)) (w : World) : World :=
  {| Deno_env_get := Deno_env_get w;
     repos_get := fun _ _ => branch;
     git_getTree := fun _ _ _ => tree;
     Deno_readTextFile := Deno_readTextFile w;
     fetch := fetch w;
     generateContent := generateContent w;
     Deno_writeTextFile := Deno_writeTextFile w |}.

(** [w] where only the URLs [reachable] accepts can be fetched. *)
Definition with_network (reachable : string → bool) (w : World) : World :=
  {| Deno_env_get := Deno_env_get w;
     repos_get := repos_get w;
     git_getTree := git_getTree w;
     Deno_readTextFile := Deno_readTextFile w;
     fetch := fun url => if reachable url then fetch w url else None;
     generateContent := generateContent w;
     Deno_writeTextFile := Deno_writeTextFile w |}.

(** The extension is not set. *)
Definition no_extension_world : World :=
  with_env (delete "TARGET_FILE_EXTENSION" sample_env) fresh_world.

(** The model of the service is not set. *)
Definition no_model_world : World :=
  with_env (delete "VERTEX_AI_MODEL" sample_env) fresh_world.

(** The repository cannot be resolved. *)
Definition unresolved_world : World :=
  with_listing None None fresh_world.

(** The fingerprint file cannot be read. *)
Definition unreadable_world : World :=
  sample_world docs_tree (inl Failure)
    (fun _ => answer ["translated"]) (fun _ => true).

(** The fingerprint file holds [null]. *)
Definition null_world : World :=
  sample_world docs_tree (inr (Serialized JNull))
    (fun _ => answer ["translated"]) (fun _ => true).

(** The content of [docs/b.md] cannot be fetched. *)
Definition offline_world : World :=
  with_network (fun url => negb (url =? content_url docs_b)) fresh_world.

(** The service answers with one candidate that has no parts. *)
Definition partless_world : World :=
  sample_world docs_tree (inl NotFound)
    (fun _ => Some [ {| parts := [] |} ]) (fun _ => true).

(** The settings as the second variant of the script names them. *)
Definition part000_env : gmap string string :=
  list_to_map
    [("GITHUB_OWNER", "owner"); ("GITHUB_REPOSITORY", "repo");
     ("TARGET_DIRECTORY_PATH", "docs"); ("TARGET_FILE_EXTENSION", ".md");
     ("HASH_FILE_PATH", "hashes.json"); ("PROMPT_URL", "prompt");
     ("VERTEX_AI_PROJECT_ID", "project"); ("VERTEX_AI_LOCATION", "location");
     ("VERTEX_AI_MODEL", "model")].

(** A serialisation of responses for the samples: the number of
    candidates. *)
Definition count_candidates (resp : GenerateContentResponse) : string :=
  pretty (length (default [] (candidates resp))).

(** Worlds under the settings of the second variant: the fingerprint
    document is not JSON; the document is the empty mapping and
    [docs/b.md] cannot be written; the repository cannot be resolved. *)
Definition part000_garbled_world : World := with_env part000_env garbled_world.
Definition part000_readonly_world : World :=
  with_env part000_env
    (sample_world docs_tree (inr (Serialized (JObject ∅)))
       (fun _ => answer ["translated"])
       (fun file => negb (file =? "docs/b.md"))).

(** * Properties *)

(** ** The effect monad *)

Section Laws.

Context {A B : Type}.

Lemma bind_Return t (a : A) (k : A → IO B) :
  bind (t, Return a) k = prefixed t (k a).
Proof. unfold bind, prefixed. by destruct (k a). Qed.

Lemma bind_ret (a : A) (k : A → IO B) : bind (ret a) k = k a.
Proof. unfold ret. rewrite bind_Return. unfold prefixed. by destruct (k a). Qed.

Lemma bind_prefixed t (m : IO A) (k : A → IO B) :
  bind (prefixed t m) k = prefixed t (bind m k).
Proof.
  destruct m as [t' [a| |]]; unfold prefixed, bind; simpl; try done.
  destruct (k a); simpl. by rewrite app_assoc.
Qed.

Lemma prefixed_app t t' (m : IO A) :
  prefixed (t ++ t') m = prefixed t (prefixed t' m).
Proof. unfold prefixed. simpl. by rewrite app_assoc. Qed.

Lemma prefixed_nil (m : IO A) : prefixed [] m = m.
Proof. by destruct m. Qed.

End Laws.

Lemma bind_emit {B} e (k : unit → IO B) :
  bind (emit e) k = prefixed [e] (k tt).
Proof. apply bind_Return. Qed.

Lemma Array_filter_ret {A} (p : A → bool) (xs : list A) :
  Array_filter (fun x => ret (p x)) xs = ret (List.filter p xs).
Proof.
  induction xs as [|x xs IH]; [done|].
  cbn [Array_filter List.filter].
  rewrite bind_ret, IH, bind_ret. by destruct (p x).
Qed.

Lemma get_not_null v key : v ≠ JNull → get v key = ret (member v key).
Proof. by destruct v. Qed.

Lemma detect_not_null v (repoFiles : list FileInfo) :
  v ≠ JNull →
  Array_filter (fun file =>
    let! stored := get v (path file) in
    ret (strict_ne stored (sha file))) repoFiles
  = ret (List.filter (changed v) repoFiles).
Proof.
  intros Hv. induction repoFiles as [|file rest IH]; [done|].
  cbn [Array_filter List.filter].
  rewrite IH, (get_not_null _ _ Hv), !bind_ret.
  unfold changed. by destruct (strict_ne _ _).
Qed.

Lemma detect_null (repoFiles : list FileInfo) :
  Array_filter (fun file =>
    let! stored := get JNull (path file) in
    ret (strict_ne stored (sha file))) repoFiles
  = match repoFiles with [] => ret [] | _ => throw TypeError end.
Proof. by destruct repoFiles. Qed.

(** ** Loading and change detection *)

Section Detection.

Variable w : World.
Variables (repoFiles : list FileInfo) (hashFilePath : string).

Lemma loadAndDetectDiffs_stored v :
  Deno_readTextFile w hashFilePath = inr (Serialized v) →
  v ≠ JNull →
  loadAndDetectDiffs w repoFiles hashFilePath
  = ([ReadTextFile hashFilePath], Return (List.filter (changed v) repoFiles)).
Proof.
  intros Hread Hv. unfold loadAndDetectDiffs, readTextFile.
  rewrite Hread, bind_emit, bind_prefixed, bind_ret. cbn [JSON_parse].
  by rewrite bind_ret, (detect_not_null _ _ Hv), bind_ret.
Qed.

Lemma loadAndDetectDiffs_missing :
  Deno_readTextFile w hashFilePath = inl NotFound →
  loadAndDetectDiffs w repoFiles hashFilePath
  = ([ReadTextFile hashFilePath], Return repoFiles).
Proof.
  intros Hread. unfold loadAndDetectDiffs, readTextFile.
  by rewrite Hread, bind_emit.
Qed.

Lemma loadAndDetectDiffs_malformed :
  Deno_readTextFile w hashFilePath = inr NotJSON →
  loadAndDetectDiffs w repoFiles hashFilePath
  = ([ReadTextFile hashFilePath], Exit 1).
Proof.
  intros Hread. unfold loadAndDetectDiffs, readTextFile.
  by rewrite Hread, bind_emit, bind_prefixed, bind_ret.
Qed.

(** The second variant takes a missing document for an empty change
    set. *)
Lemma Part000_loadAndDetectDiffs_missing :
  Deno_readTextFile w hashFilePath = inl NotFound →
  Part000.loadAndDetectDiffs w repoFiles hashFilePath
  = ([ReadTextFile hashFilePath], Return []).
Proof.
  intros Hread. unfold Part000.loadAndDetectDiffs, readTextFile.
  by rewrite Hread, bind_emit.
Qed.

Lemma loadAndDetectDiffs_outcome :
  ∃ r, loadAndDetectDiffs w repoFiles hashFilePath
       = ([ReadTextFile hashFilePath], r)
       ∧ (r = Exit 1 ∨ ∃ changedFiles, r = Return changedFiles).
Proof.
  destruct (Deno_readTextFile w hashFilePath) as [e|[|v]] eqn:Hread.
  - unfold loadAndDetectDiffs, readTextFile. rewrite Hread, bind_emit.
    destruct e; cbn; eauto.
  - rewrite (loadAndDetectDiffs_malformed Hread). eauto.
  - assert (v = JNull ∨ v ≠ JNull) as [->|Hv] by (destruct v; eauto).
    + unfold loadAndDetectDiffs, readTextFile.
      rewrite Hread, bind_emit, bind_prefixed, bind_ret. cbn [JSON_parse].
      rewrite bind_ret, detect_null. destruct repoFiles; cbn; eauto.
    + rewrite (loadAndDetectDiffs_stored _ Hread Hv). eauto.
Qed.

End Detection.

(** ** Listing, translation and the processing loop *)

Ltac outcome :=
  eexists _, _; split; [reflexivity|]; split; [done|]; by eauto.

Ltac loop_outcome :=
  eexists _, _; split; [reflexivity|]; split; [done|];
  split; [done|]; by intros ? [= <-].

Section Stages.

Variable w : World.

Lemma getFilesInDirectory_outcome owner repo dir :
  ∃ t r, getFilesInDirectory w owner repo dir = (t, r)
         ∧ forallb (fun e => negb (processes e)) t = true
         ∧ (r = Exit 1 ∨ ∃ filesInRepo, r = Return filesInRepo).
Proof.
  unfold getFilesInDirectory.
  destruct (truthy (Deno_env_get w "TARGET_FILE_EXTENSION")); cbn;
    [|outcome].
  destruct (repos_get w owner repo) as [branch|]; cbn; [|outcome].
  destruct (git_getTree w owner repo branch); cbn; outcome.
Qed.

Lemma translate_and_write_outcome file :
  ∃ t r, translate_and_write w file = (t, r)
         ∧ existsb is_commit t = false
         ∧ (existsb failed_output t = true → r = Exit 1)
         ∧ (∀ code, r = Exit code → code = 1%Z).
Proof.
  unfold translate_and_write, translateText, fetch_text, writeFile,
    writeTextFile.
  destruct (fetch w (content_url file)); cbn; [|loop_outcome].
  destruct (truthy (Deno_env_get w "VERTEX_AI_PROJECT_ID")); cbn;
    [|loop_outcome].
  destruct (truthy (Deno_env_get w "VERTEX_AI_LOCATION")); cbn;
    [|loop_outcome].
  destruct (truthy (Deno_env_get w "VERTEX_AI_MODEL")); cbn; [|loop_outcome].
  destruct (truthy (Deno_env_get w "PROMPT_URL")); cbn; [|loop_outcome].
  destruct (fetch w _); cbn; [|loop_outcome].
  destruct (generateContent w _ _ _ _ _) as [[[[|c cs]|]]|]; cbn;
    try loop_outcome.
  destruct (Deno_writeTextFile w _ _); cbn; loop_outcome.
Qed.

Lemma for_of_outcome (changedFiles : list FileInfo) :
  ∃ t r, for_of changedFiles (translate_and_write w) = (t, r)
         ∧ existsb is_commit t = false
         ∧ (existsb failed_output t = true → r = Exit 1)
         ∧ (∀ code, r = Exit code → code = 1%Z).
Proof.
  induction changedFiles
    as [|file rest (t' & r' & Hrest & Hcommit & Hfail & Hcode)].
  { exists [], (Return tt). by cbn. }
  destruct (translate_and_write_outcome file)
    as (t & r & Hfile & Hc & Hf & Hx).
  cbn [for_of]. rewrite Hfile. destruct r as [[]| |]; [|by eauto 7..].
  rewrite bind_Return, Hrest. unfold prefixed. cbn [fst snd].
  eexists _, _. split; [done|]. rewrite !existsb_app, Hc, Hcommit.
  split; [done|]. split; [|done].
  intros [H|H]%orb_prop; [by apply Hf in H|by auto].
Qed.

End Stages.

(** ** The shape of a run *)

Lemma truthy_Some s : s ≠ "" → truthy (Some s) = true.
Proof. intros H. cbn. by apply negb_true_iff, String.eqb_neq. Qed.

Lemma truthy_narrowed v : truthy v = true → v = Some (narrowed v).
Proof. by destruct v. Qed.

Section Run.

Variable w : World.

Lemma process_and_commit_outcome changedFiles hashFilePath :
  let commit := JSON_stringify (newHashes changedFiles) in
  let ok := Deno_writeTextFile w hashFilePath commit in
  ∃ t r, for_of changedFiles (translate_and_write w) = (t, r)
    ∧ existsb is_commit t = false
    ∧ (existsb failed_output t = true → r = Exit 1)
    ∧ (∀ code, r = Exit code → code = 1%Z)
    ∧ process_and_commit w changedFiles hashFilePath
      = match r with
        | Return _ =>
            (t ++ [WriteTextFile hashFilePath commit ok],
             Exit (if ok then 0 else 1))
        | Throw e => (t, Throw e)
        | Exit code => (t, Exit code)
        end.
Proof.
  intros commit ok.
  destruct (for_of_outcome w changedFiles)
    as (t & r & Hloop & Hc & Hf & Hx).
  exists t, r. do 4 (split; [done|]).
  unfold process_and_commit. rewrite Hloop.
  destruct r as [[]| |]; [|done..].
  rewrite bind_Return. unfold saveHashToJson, writeTextFile.
  fold commit. fold ok. by destruct ok.
Qed.

Lemma synchronize_run filesInRepo hashFilePath t1 changedFiles :
  loadAndDetectDiffs w filesInRepo hashFilePath = (t1, Return changedFiles) →
  synchronize w filesInRepo hashFilePath
  = if (0 <? length changedFiles)%nat
    then prefixed t1 (process_and_commit w changedFiles hashFilePath)
    else (t1, Exit 0).
Proof.
  intros Hdiff. unfold synchronize. rewrite Hdiff, bind_Return.
  destruct (0 <? length changedFiles)%nat; [done|].
  unfold prefixed, Deno_exit. cbn. by rewrite app_nil_r.
Qed.

Lemma script_listed owner repo directoryPath hashFilePath t0 filesInRepo :
  configured w owner repo directoryPath hashFilePath →
  getFilesInDirectory w owner repo directoryPath = (t0, Return filesInRepo) →
  script w = prefixed t0 (synchronize w filesInRepo hashFilePath).
Proof.
  intros (Htok & Ho & Ho' & Hr & Hr' & Hd & Hd' & Hh & Hh') Hlist.
  unfold script, main. rewrite Htok, Ho, Hr, Hd, Hh, !truthy_Some by done.
  cbn [negb orb].
  change (narrowed (Some owner)) with owner.
  change (narrowed (Some repo)) with repo.
  change (narrowed (Some directoryPath)) with directoryPath.
  change (narrowed (Some hashFilePath)) with hashFilePath.
  by rewrite Hlist, bind_Return.
Qed.

Lemma main_run owner repo directoryPath hashFilePath
    t0 filesInRepo t1 changedFiles :
  configured w owner repo directoryPath hashFilePath →
  getFilesInDirectory w owner repo directoryPath = (t0, Return filesInRepo) →
  loadAndDetectDiffs w filesInRepo hashFilePath = (t1, Return changedFiles) →
  script w
  = if (0 <? length changedFiles)%nat
    then prefixed (t0 ++ t1)
           (process_and_commit w changedFiles hashFilePath)
    else (t0 ++ t1, Exit 0).
Proof.
  intros Hconf Hlist Hdiff.
  rewrite (script_listed _ _ _ _ _ _ Hconf Hlist), (synchronize_run _ _ _ _ Hdiff).
  destruct (0 <? length changedFiles)%nat; [by rewrite prefixed_app|].
  done.
Qed.

(** Every run either stops with status 1 before any file is processed,
    finds nothing changed, or processes a non-empty change set. *)
Lemma script_cases :
  (∃ t, script w = (t, Exit 1) ∧ forallb (fun e => negb (processes e)) t = true)
  ∨ (∃ t, script w = (t, Exit 0)
          ∧ forallb (fun e => negb (processes e)) t = true)
  ∨ (∃ t changedFiles hashFilePath,
       forallb (fun e => negb (processes e)) t = true
       ∧ script w
         = prefixed t (process_and_commit w changedFiles hashFilePath)).
Proof.
  unfold script, main.
  destruct (truthy (Deno_env_get w "GH_ACCESS_TOKEN")); cbn [negb];
    [|left; by exists []].
  destruct (truthy (Deno_env_get w "GH_OWNER")); cbn [negb orb];
    [|left; by exists []].
  destruct (truthy (Deno_env_get w "GH_REPO")); cbn [negb orb];
    [|left; by exists []].
  destruct (truthy (Deno_env_get w "TARGET_DIRECTORY_PATH")); cbn [negb orb];
    [|left; by exists []].
  destruct (truthy (Deno_env_get w "HASH_FILE_PATH")); cbn [negb orb];
    [|left; by exists []].
  destruct (getFilesInDirectory_outcome w
              (narrowed (Deno_env_get w "GH_OWNER"))
              (narrowed (Deno_env_get w "GH_REPO"))
              (narrowed (Deno_env_get w "TARGET_DIRECTORY_PATH")))
    as (t0 & r0 & -> & Hidle & [->|[filesInRepo ->]]).
  { left. by exists t0. }
  rewrite bind_Return. unfold synchronize.
  destruct (loadAndDetectDiffs_outcome w filesInRepo
              (narrowed (Deno_env_get w "HASH_FILE_PATH")))
    as (r1 & -> & [->|[changedFiles ->]]).
  { left. exists (t0 ++ [ReadTextFile (narrowed (Deno_env_get w "HASH_FILE_PATH"))]).
    split; [done|]. by rewrite forallb_app, Hidle. }
  rewrite bind_Return, <- prefixed_app.
  destruct (0 <? length changedFiles)%nat.
  - right; right. eexists _, _, _. split; [|done].
    by rewrite forallb_app, Hidle.
  - right; left. eexists. unfold prefixed, Deno_exit. cbn [fst snd].
    rewrite app_nil_r. split; [done|]. by rewrite forallb_app, Hidle.
Qed.

End Run.

(** ** Change detection *)

Lemma strict_ne_true value s :
  strict_ne value s = true ↔ value ≠ Some (JString s).
Proof.
  destruct value as [[| | |s'| |]|]; cbn; try by split.
  rewrite negb_true_iff, String.eqb_neq. split; congruence.
Qed.

Lemma idle_forallb t :
  forallb (fun e => negb (processes e)) t = true → idle t.
Proof.
  intros H. apply Forall_forall. intros e He.
  rewrite forallb_forall in H. apply negb_true_iff, H.
  by apply list_elem_of_In.
Qed.

(** C4: against a stored mapping that loaded, a file of the listing is in
    the change set exactly when the mapping has no entry for its path or
    the stored fingerprint differs from the current one. *)
Theorem change_detection_correct (w : World) (repoFiles : list FileInfo)
    (hashFilePath : string) (stored : gmap string JSON) :
  Deno_readTextFile w hashFilePath = inr (Serialized (JObject stored)) →
  ∃ changedFiles,
    loadAndDetectDiffs w repoFiles hashFilePath
    = ([ReadTextFile hashFilePath], Return changedFiles)
    ∧ ∀ F, F ∈ changedFiles ↔
           F ∈ repoFiles
           ∧ (stored !! path F = None
              ∨ ∃ S, stored !! path F = Some S ∧ S ≠ JString (sha F)).
Proof.
  intros Hread. eexists. split.
  { by apply loadAndDetectDiffs_stored. }
  intros F. rewrite !list_elem_of_In, filter_In. unfold changed.
  rewrite strict_ne_true. cbn [member].
  destruct (stored !! path F) as [S|]; split; intros [HF H];
    (split; [done|]); try by eauto.
  - right. exists S. split; [done|]. congruence.
  - destruct H as [|(S' & [= <-] & HS)]; [done|]. congruence.
Qed.

Lemma change_detection_correct_witness :
  Deno_readTextFile tracked_world "hashes.json"
  = inr (Serialized (JObject {[ "docs/a.md" := JString "sha1" ]}))
  ∧ ∃ changedFiles,
      loadAndDetectDiffs tracked_world docs_listing "hashes.json"
      = ([ReadTextFile "hashes.json"], Return changedFiles)
      ∧ ∀ F, F ∈ changedFiles ↔
             F ∈ docs_listing
             ∧ (({[ "docs/a.md" := JString "sha1" ]} : gmap string JSON)
                  !! path F = None
                ∨ ∃ S, ({[ "docs/a.md" := JString "sha1" ]} : gmap string JSON)
                         !! path F = Some S
                       ∧ S ≠ JString (sha F)).
Proof.
  split; [reflexivity|].
  apply (change_detection_correct tracked_world docs_listing "hashes.json").
  reflexivity.
Defined.

(** C10: on a document that was read and parsed to a value other than
    [null], the change detectors of the two variants of the script make the
    same request and return the same files in the same order. *)
Theorem variants_agree_on_loaded_document (w : World)
    (repoFiles : list FileInfo) (hashFilePath : string) (v : JSON) :
  Deno_readTextFile w hashFilePath = inr (Serialized v) →
  v ≠ JNull →
  ∃ changedFiles,
    loadAndDetectDiffs w repoFiles hashFilePath
    = ([ReadTextFile hashFilePath], Return changedFiles)
    ∧ Part000.loadAndDetectDiffs w repoFiles hashFilePath
      = ([ReadTextFile hashFilePath], Return changedFiles).
Proof.
  intros Hread Hv. eexists. split.
  { by apply loadAndDetectDiffs_stored. }
  unfold Part000.loadAndDetectDiffs, readTextFile.
  rewrite Hread, bind_emit, bind_prefixed, bind_ret. cbn [JSON_parse].
  by rewrite bind_ret, (detect_not_null _ _ Hv), bind_ret.
Qed.

Lemma variants_agree_on_loaded_document_witness :
  Deno_readTextFile tracked_world "hashes.json"
  = inr (Serialized (JObject {[ "docs/a.md" := JString "sha1" ]}))
  ∧ JObject {[ "docs/a.md" := JString "sha1" ]} ≠ JNull
  ∧ ∃ changedFiles,
      loadAndDetectDiffs tracked_world docs_listing "hashes.json"
      = ([ReadTextFile "hashes.json"], Return changedFiles)
      ∧ Part000.loadAndDetectDiffs tracked_world docs_listing "hashes.json"
        = ([ReadTextFile "hashes.json"], Return changedFiles).
Proof.
  split; [reflexivity|]. split; [discriminate|].
  apply (variants_agree_on_loaded_document tracked_world docs_listing
           "hashes.json" (JObject {[ "docs/a.md" := JString "sha1" ]}));
    [reflexivity|discriminate].
Defined.

(** ** Loading the fingerprint document *)

(** C5: when no fingerprint document exists, the load answers with the
    whole listing instead of ending the run, and a run over a non-empty
    listing goes on to process every listed file and commit them. *)
Theorem first_run_completeness (w : World)
    (owner repo directoryPath hashFilePath : string)
    (t0 : list Event) (filesInRepo : list FileInfo) :
  configured w owner repo directoryPath hashFilePath →
  getFilesInDirectory w owner repo directoryPath = (t0, Return filesInRepo) →
  filesInRepo ≠ [] →
  Deno_readTextFile w hashFilePath = inl NotFound →
  loadAndDetectDiffs w filesInRepo hashFilePath
  = ([ReadTextFile hashFilePath], Return filesInRepo)
  ∧ script w
    = prefixed (t0 ++ [ReadTextFile hashFilePath])
        (process_and_commit w filesInRepo hashFilePath).
Proof.
  intros Hconf Hlist Hne Hread.
  pose proof (loadAndDetectDiffs_missing w filesInRepo _ Hread) as Hdiff.
  split; [done|]. rewrite (main_run _ _ _ _ _ _ _ _ _ Hconf Hlist Hdiff).
  by destruct filesInRepo.
Qed.

Lemma sample_configured tree document service writable :
  configured (sample_world tree document service writable)
    "owner" "repo" "docs" "hashes.json".
Proof. repeat split; done. Qed.

Lemma first_run_completeness_witness :
  configured fresh_world "owner" "repo" "docs" "hashes.json"
  ∧ getFilesInDirectory fresh_world "owner" "repo" "docs"
    = ([ReposGet "owner" "repo"; GitGetTree "owner" "repo" "main"],
       Return docs_listing)
  ∧ docs_listing ≠ []
  ∧ Deno_readTextFile fresh_world "hashes.json" = inl NotFound
  ∧ loadAndDetectDiffs fresh_world docs_listing "hashes.json"
    = ([ReadTextFile "hashes.json"], Return docs_listing)
  ∧ script fresh_world
    = prefixed ([ReposGet "owner" "repo"; GitGetTree "owner" "repo" "main"]
                ++ [ReadTextFile "hashes.json"])
        (process_and_commit fresh_world docs_listing "hashes.json").
Proof.
  split; [apply sample_configured|]. split; [reflexivity|].
  split; [discriminate|]. split; [reflexivity|].
  apply (first_run_completeness fresh_world "owner" "repo" "docs"
           "hashes.json");
    [apply sample_configured|reflexivity|discriminate|reflexivity].
Defined.

(** C9: a fingerprint document that exists but is not JSON is not taken for
    a missing one: the load ends the process, and the run stops with
    status 1 before any file is fetched, transformed or written. *)
Theorem malformed_document_aborts (w : World) (hashFilePath : string) :
  Deno_env_get w "HASH_FILE_PATH" = Some hashFilePath →
  Deno_readTextFile w hashFilePath = inr NotJSON →
  (∀ repoFiles, loadAndDetectDiffs w repoFiles hashFilePath
                = ([ReadTextFile hashFilePath], Exit 1))
  ∧ ∃ t, script w = (t, Exit 1) ∧ exit_status (script w).2 ≠ 0%Z ∧ idle t.
Proof.
  intros Hh Hread. split.
  { intros repoFiles. by apply loadAndDetectDiffs_malformed. }
  enough (∃ t, script w = (t, Exit 1) ∧ idle t) as (t & Ht & Hidle).
  { exists t. rewrite Ht. by repeat split. }
  assert (idle []) as Hnil by constructor.
  unfold script, main. rewrite Hh.
  destruct (truthy (Deno_env_get w "GH_ACCESS_TOKEN")); cbn [negb];
    [|by exists []].
  destruct (truthy (Deno_env_get w "GH_OWNER")); cbn [negb orb];
    [|by exists []].
  destruct (truthy (Deno_env_get w "GH_REPO")); cbn [negb orb];
    [|by exists []].
  destruct (truthy (Deno_env_get w "TARGET_DIRECTORY_PATH")); cbn [negb orb];
    [|by exists []].
  destruct (truthy (Some hashFilePath)); cbn [negb orb]; [|by exists []].
  change (narrowed (Some hashFilePath)) with hashFilePath.
  destruct (getFilesInDirectory_outcome w
              (narrowed (Deno_env_get w "GH_OWNER"))
              (narrowed (Deno_env_get w "GH_REPO"))
              (narrowed (Deno_env_get w "TARGET_DIRECTORY_PATH")))
    as (t0 & r0 & -> & Hidle & [->|[filesInRepo ->]]).
  { exists t0. split; [done|by apply idle_forallb]. }
  rewrite bind_Return. unfold synchronize.
  rewrite (loadAndDetectDiffs_malformed _ _ _ Hread).
  exists (t0 ++ [ReadTextFile hashFilePath]). split; [done|].
  apply idle_forallb. by rewrite forallb_app, Hidle.
Qed.

Lemma malformed_document_aborts_witness :
  Deno_env_get garbled_world "HASH_FILE_PATH" = Some "hashes.json"
  ∧ Deno_readTextFile garbled_world "hashes.json" = inr NotJSON
  ∧ (∀ repoFiles, loadAndDetectDiffs garbled_world repoFiles "hashes.json"
                  = ([ReadTextFile "hashes.json"], Exit 1))
  ∧ ∃ t, script garbled_world = (t, Exit 1)
         ∧ exit_status (script garbled_world).2 ≠ 0%Z ∧ idle t.
Proof.
  split; [reflexivity|]. split; [reflexivity|].
  apply (malformed_document_aborts garbled_world "hashes.json");
    reflexivity.
Defined.

(** ** The orchestrator *)

Lemma elem_of_existsb {A} (f : A → bool) (x : A) (l : list A) :
  x ∈ l → f x = true → existsb f l = true.
Proof.
  intros Hx Hf. apply existsb_exists. exists x.
  split; [by apply list_elem_of_In|done].
Qed.

Lemma committed_None t : existsb is_commit t = false → committed t = None.
Proof.
  induction t as [|e t IH]; [done|]. cbn [existsb committed].
  intros [He Ht]%orb_false_elim. rewrite (IH Ht).
  by destruct e as [| | | | |? [] []].
Qed.

Lemma commit_processes t :
  forallb (fun e => negb (processes e)) t = true → existsb is_commit t = false.
Proof.
  induction t as [|e t IH]; [done|]. cbn [forallb existsb].
  intros [He Ht]%andb_prop. rewrite (IH Ht).
  by destruct e as [| | | | |? [] ?].
Qed.

(** C8: a run whose change set is empty fetches, transforms and writes
    nothing, leaves the fingerprint document alone and ends with status
    0. *)
Theorem no_changes_is_noop (w : World)
    (owner repo directoryPath hashFilePath : string)
    (t0 t1 : list Event) (filesInRepo : list FileInfo) :
  configured w owner repo directoryPath hashFilePath →
  getFilesInDirectory w owner repo directoryPath = (t0, Return filesInRepo) →
  loadAndDetectDiffs w filesInRepo hashFilePath = (t1, Return []) →
  script w = (t0 ++ t1, Exit 0)
  ∧ exit_status (script w).2 = 0%Z
  ∧ idle (t0 ++ t1)
  ∧ committed (t0 ++ t1) = None.
Proof.
  intros Hconf Hlist Hdiff.
  rewrite (main_run _ _ _ _ _ _ _ _ _ Hconf Hlist Hdiff). cbn.
  do 2 (split; [done|]).
  destruct (getFilesInDirectory_outcome w owner repo directoryPath)
    as (t & r & Ht & Hidle & _).
  destruct (loadAndDetectDiffs_outcome w filesInRepo hashFilePath)
    as (r' & Ht' & _).
  assert (forallb (fun e => negb (processes e)) (t0 ++ t1) = true) as H.
  { rewrite forallb_app. replace t0 with t by congruence.
    replace t1 with [ReadTextFile hashFilePath] by congruence.
    by rewrite Hidle. }
  split; [by apply idle_forallb|].
  by apply committed_None, commit_processes.
Qed.

Lemma no_changes_is_noop_witness :
  configured settled_world "owner" "repo" "docs" "hashes.json"
  ∧ getFilesInDirectory settled_world "owner" "repo" "docs"
    = ([ReposGet "owner" "repo"; GitGetTree "owner" "repo" "main"],
       Return docs_listing)
  ∧ loadAndDetectDiffs settled_world docs_listing "hashes.json"
    = ([ReadTextFile "hashes.json"], Return [])
  ∧ script settled_world
    = ([ReposGet "owner" "repo"; GitGetTree "owner" "repo" "main"]
       ++ [ReadTextFile "hashes.json"], Exit 0)
  ∧ exit_status (script settled_world).2 = 0%Z
  ∧ idle ([ReposGet "owner" "repo"; GitGetTree "owner" "repo" "main"]
          ++ [ReadTextFile "hashes.json"])
  ∧ committed ([ReposGet "owner" "repo"; GitGetTree "owner" "repo" "main"]
               ++ [ReadTextFile "hashes.json"]) = None.
Proof.
  split; [apply sample_configured|]. split; [reflexivity|].
  split; [reflexivity|].
  apply (no_changes_is_noop settled_world "owner" "repo" "docs"
           "hashes.json" _ _ docs_listing);
    [apply sample_configured|reflexivity|reflexivity].
Defined.

Lemma not_commit_elem t file record ok :
  existsb is_commit t = false →
  WriteTextFile file (JSON_stringify record) ok ∉ t.
Proof.
  intros H Hin. by rewrite (elem_of_existsb is_commit _ _ Hin) in H.
Qed.

(** C6: a run in which the write of a translated file fails ends with
    status 1 and never writes the fingerprint document. *)
Theorem output_write_failure_aborts (w : World) (t : list Event)
    (r : Result unit) :
  script w = (t, r) →
  (∃ file content, WriteTextFile file (Text content) false ∈ t) →
  r = Exit 1
  ∧ exit_status r ≠ 0%Z
  ∧ (∀ file record ok, WriteTextFile file (JSON_stringify record) ok ∉ t)
  ∧ committed t = None.
Proof.
  intros Hrun (file & content & Hin).
  assert (existsb failed_output t = true) as Hfailed
    by by apply (elem_of_existsb _ _ _ Hin).
  enough (r = Exit 1 ∧ existsb is_commit t = false) as [-> Hc].
  { repeat split; [done|..].
    - intros. by apply not_commit_elem.
    - by apply committed_None. }
  assert (∀ t', forallb (fun e => negb (processes e)) t' = true →
                existsb failed_output t' = false) as Hquiet.
  { induction t' as [|e t' IH]; [done|]. cbn [forallb existsb].
    intros [He Ht]%andb_prop. rewrite (IH Ht).
    by destruct e as [| | | | |? [] []]. }
  destruct (script_cases w)
    as [(t' & Hs & Hidle)|[(t' & Hs & Hidle)|(t0 & cs & hp & Hidle & Hs)]].
  - rewrite Hs in Hrun. injection Hrun as <- <-.
    by rewrite (Hquiet _ Hidle) in Hfailed.
  - rewrite Hs in Hrun. injection Hrun as <- <-.
    by rewrite (Hquiet _ Hidle) in Hfailed.
  - destruct (process_and_commit_outcome w cs hp)
      as (tl & rl & _ & Hc & Hf & _ & Hp).
    rewrite Hs, Hp in Hrun. unfold prefixed in Hrun.
    destruct rl as [[]|e|code]; cbn [fst snd] in Hrun;
      injection Hrun as <- <-;
      rewrite ?existsb_app, (Hquiet _ Hidle) in Hfailed;
      cbn [orb existsb failed_output] in Hfailed.
    + rewrite orb_false_r in Hfailed. by apply Hf in Hfailed.
    + by apply Hf in Hfailed.
    + apply Hf in Hfailed as [= ->]. split; [done|].
      by rewrite existsb_app, (commit_processes _ Hidle), Hc.
Qed.

Lemma output_write_failure_aborts_witness :
  script readonly_world
  = ([ReposGet "owner" "repo"; GitGetTree "owner" "repo" "main";
      ReadTextFile "hashes.json";
      Fetch (content_url docs_a); Fetch "prompt";
      GenerateContent "project" "location" "model" 8192 (request_for docs_a);
      WriteTextFile "docs/a.md" (Text "translated") true;
      Fetch (content_url docs_b); Fetch "prompt";
      GenerateContent "project" "location" "model" 8192 (request_for docs_b);
      WriteTextFile "docs/b.md" (Text "translated") false],
     Exit 1)
  ∧ (∃ file content,
       WriteTextFile file (Text content) false ∈ (script readonly_world).1)
  ∧ (script readonly_world).2 = Exit 1
  ∧ exit_status (script readonly_world).2 ≠ 0%Z
  ∧ (∀ file record ok,
       WriteTextFile file (JSON_stringify record) ok
       ∉ (script readonly_world).1)
  ∧ committed (script readonly_world).1 = None.
Proof.
  assert (∃ file content,
            WriteTextFile file (Text content) false
            ∈ (script readonly_world).1) as Hfailed.
  { exists "docs/b.md", "translated". apply list_elem_of_In.
    vm_compute. tauto. }
  split; [reflexivity|]. split; [exact Hfailed|].
  apply (output_write_failure_aborts readonly_world
           (script readonly_world).1 (script readonly_world).2);
    [by destruct (script readonly_world)|exact Hfailed].
Defined.

(** ** The transformer *)

Section Transformer.

Variable w : World.

Lemma translateText_responds url request resp :
  responds w url request resp →
  translateText w url
  = (translation_requests w url request,
     Return match candidates resp with
            | Some ((_ :: _) as cs) => Some (text_parts cs)
            | _ => None
            end).
Proof.
  intros (content & prompt & Hc & Hproj & Hloc & Hmodel & Hurl & Hp & -> & Hg).
  unfold translateText, fetch_text.
  rewrite Hc, Hproj, Hloc, Hmodel, Hurl, Hp. cbn [negb orb].
  rewrite bind_emit, bind_prefixed, bind_ret.
  rewrite bind_emit, bind_prefixed, bind_ret.
  rewrite Hg, bind_emit, bind_prefixed, bind_ret.
  by destruct (candidates resp) as [[|c cs]|].
Qed.

Lemma translate_and_write_concerns file :
  Forall (concerns w file) (translate_and_write w file).1.
Proof.
  unfold translate_and_write, translateText, fetch_text, writeFile,
    writeTextFile.
  destruct (fetch w (content_url file)); cbn;
    [|repeat constructor; by eauto].
  destruct (truthy (Deno_env_get w "VERTEX_AI_PROJECT_ID")); cbn;
    [|repeat constructor; by eauto].
  destruct (truthy (Deno_env_get w "VERTEX_AI_LOCATION")); cbn;
    [|repeat constructor; by eauto].
  destruct (truthy (Deno_env_get w "VERTEX_AI_MODEL")); cbn;
    [|repeat constructor; by eauto].
  destruct (truthy (Deno_env_get w "PROMPT_URL")); cbn;
    [|repeat constructor; by eauto].
  destruct (fetch w _); cbn; [|repeat constructor; by eauto].
  destruct (generateContent w _ _ _ _ _) as [[[[|c cs]|]]|]; cbn;
    try (repeat constructor; by eauto).
  destruct (Deno_writeTextFile w _ _); cbn; repeat constructor; by eauto.
Qed.

End Transformer.

(** C7, as the code has it: for a response with at least one candidate the
    transformer returns the text parts of all candidates in response
    order, and the text the run writes is these parts with a line break
    between consecutive parts, a part without text counting as empty. *)
Theorem result_text_joins_parts_with_line_breaks (w : World)
    (file : FileInfo) (request : string) (resp : GenerateContentResponse)
    (c : Candidate) (cs : list Candidate) :
  responds w (content_url file) request resp →
  candidates resp = Some (c :: cs) →
  let written :=
    String.concat LF (List.map (default "") (text_parts (c :: cs))) in
  let ok := Deno_writeTextFile w (path file) (Text written) in
  translateText w (content_url file)
  = (translation_requests w (content_url file) request,
     Return (Some (text_parts (c :: cs))))
  ∧ translate_and_write w file
    = (translation_requests w (content_url file) request
       ++ [WriteTextFile (path file) (Text written) ok],
       if ok then Return tt else Exit 1).
Proof.
  intros Hresp Hcs written ok.
  pose proof (translateText_responds w _ _ _ Hresp) as Ht.
  rewrite Hcs in Ht. split; [done|].
  unfold translate_and_write. rewrite Ht, bind_Return.
  change (writeFile w _ _)
    with (try_catch
            (emit (WriteTextFile (path file) (Text written) ok) ;;;
             if ok then ret tt else throw Failure)
            (fun _ => Deno_exit 1)).
  by destruct ok.
Qed.

Lemma two_parts_responds :
  responds two_parts_world (content_url docs_a) (request_for docs_a)
    {| candidates := answer ["first"; "second"] |}.
Proof.
  exists (content_url docs_a), "prompt". repeat split; reflexivity.
Qed.

Lemma result_text_joins_parts_with_line_breaks_witness :
  responds two_parts_world (content_url docs_a) (request_for docs_a)
    {| candidates := answer ["first"; "second"] |}
  ∧ answer ["first"; "second"]
    = Some [ {| parts := [ {| text := Some "first" |};
                           {| text := Some "second" |} ] |} ]
  ∧ translateText two_parts_world (content_url docs_a)
    = (translation_requests two_parts_world (content_url docs_a)
         (request_for docs_a),
       Return (Some [Some "first"; Some "second"]))
  ∧ translate_and_write two_parts_world docs_a
    = (translation_requests two_parts_world (content_url docs_a)
         (request_for docs_a)
       ++ [WriteTextFile "docs/a.md"
             (Text ("first" +:+ LF +:+ "second")) true],
       Return tt).
Proof.
  split; [apply two_parts_responds|]. split; [reflexivity|].
  apply (result_text_joins_parts_with_line_breaks two_parts_world docs_a
           (request_for docs_a) {| candidates := answer ["first"; "second"] |}
           {| parts := [ {| text := Some "first" |};
                         {| text := Some "second" |} ] |} []);
    [apply two_parts_responds|reflexivity].
Defined.

(** C7 as stated fails: for a response of one candidate with the parts
    "first" and "second" the text written is not their concatenation. *)
Lemma result_text_is_not_concatenation :
  ∃ cs written,
    responds two_parts_world (content_url docs_a) (request_for docs_a)
      {| candidates := Some cs |}
    ∧ cs ≠ []
    ∧ translate_and_write two_parts_world docs_a
      = (translation_requests two_parts_world (content_url docs_a)
           (request_for docs_a)
         ++ [WriteTextFile "docs/a.md" (Text written) true],
         Return tt)
    ∧ concatenation_of_text_parts cs = "firstsecond"
    ∧ written ≠ concatenation_of_text_parts cs.
Proof.
  exists [ {| parts := [ {| text := Some "first" |};
                         {| text := Some "second" |} ] |} ],
    ("first" +:+ LF +:+ "second").
  split; [apply two_parts_responds|]. split; [discriminate|].
  split; [reflexivity|]. split; [reflexivity|]. vm_compute. discriminate.
Qed.

(** ** The committed fingerprints *)

Lemma fold_insert_other (cs : list FileInfo) (acc : gmap string string) p :
  p ∉ List.map path cs →
  fold_left (fun acc f => <[path f := sha f]> acc) cs acc !! p = acc !! p.
Proof.
  revert acc. induction cs as [|G cs IH]; intros acc Hp; [done|].
  cbn [fold_left]. cbn [List.map] in Hp.
  apply not_elem_of_cons in Hp as [Hne Hp].
  by rewrite IH, lookup_insert_ne.
Qed.

Lemma fold_insert_listed (cs : list FileInfo) (acc : gmap string string) F :
  NoDup (List.map path cs) → F ∈ cs →
  fold_left (fun acc f => <[path f := sha f]> acc) cs acc !! path F
  = Some (sha F).
Proof.
  revert acc. induction cs as [|G cs IH]; intros acc Hnd HF.
  { by apply elem_of_nil in HF. }
  cbn [List.map] in Hnd. apply NoDup_cons in Hnd as [HG Hnd].
  cbn [fold_left]. apply elem_of_cons in HF as [->|HF]; [|by apply IH].
  by rewrite fold_insert_other, lookup_insert_eq.
Qed.

Lemma newHashes_listed cs F :
  NoDup (List.map path cs) → F ∈ cs →
  newHashes cs !! path F = Some (sha F).
Proof. apply fold_insert_listed. Qed.

Lemma same_path_same_file (cs : list FileInfo) F G :
  NoDup (List.map path cs) → F ∈ cs → G ∈ cs → path G = path F → G = F.
Proof.
  induction cs as [|H cs IH]; intros Hnd HF HG Hp.
  { by apply elem_of_nil in HF. }
  cbn [List.map] in Hnd. apply NoDup_cons in Hnd as [HH Hnd].
  apply elem_of_cons in HF as [->|HF]; apply elem_of_cons in HG as [->|HG];
    [done| | |by apply IH].
  - destruct HH. rewrite <- Hp. by apply list_elem_of_fmap_2.
  - destruct HH. rewrite Hp. by apply list_elem_of_fmap_2.
Qed.

Lemma committed_snoc t target record :
  committed (t ++ [WriteTextFile target (JSON_stringify record) true])
  = Some (target, record).
Proof. induction t as [|e t IH]; [done|]. cbn. by rewrite IH. Qed.

Lemma for_of_events {A} (body : A → IO unit) (xs : list A) e :
  e ∈ (for_of xs body).1 → ∃ x, x ∈ xs ∧ e ∈ (body x).1.
Proof.
  induction xs as [|x xs IH]; cbn [for_of].
  { intros H. by apply elem_of_nil in H. }
  destruct (body x) as [t [[]| |]] eqn:Hx.
  - rewrite bind_Return. unfold prefixed. cbn [fst].
    intros [H|H]%elem_of_app.
    + exists x. rewrite Hx. split; [left|done].
    + destruct (IH H) as (y & Hy & Hey). exists y. split; [by right|done].
  - intros H. exists x. rewrite Hx. split; [left|done].
  - intros H. exists x. rewrite Hx. split; [left|done].
Qed.

Lemma quiet_not_processing t e :
  forallb (fun e => negb (processes e)) t = true → e ∈ t →
  processes e = false.
Proof.
  intros H He. rewrite forallb_forall in H.
  apply negb_true_iff, H. by apply list_elem_of_In.
Qed.

Lemma listing_and_load_quiet (w : World) owner repo directoryPath
    hashFilePath t0 t1 filesInRepo r0 r1 :
  getFilesInDirectory w owner repo directoryPath = (t0, r0) →
  loadAndDetectDiffs w filesInRepo hashFilePath = (t1, r1) →
  forallb (fun e => negb (processes e)) (t0 ++ t1) = true.
Proof.
  intros Hlist Hdiff.
  destruct (getFilesInDirectory_outcome w owner repo directoryPath)
    as (t & r & Ht & Hidle & _).
  destruct (loadAndDetectDiffs_outcome w filesInRepo hashFilePath)
    as (r' & Ht' & _).
  rewrite forallb_app. replace t0 with t by congruence.
  replace t1 with [ReadTextFile hashFilePath] by congruence.
  by rewrite Hidle.
Qed.

(** ** Skipped files *)

(** C1, as the code has it: a changed file for which the service returns
    no candidate is not written, but the mapping the run commits is built
    from the whole change set, so it records that file with its current
    fingerprint all the same. *)
Theorem skipped_file_is_not_written_but_committed (w : World)
    (owner repo directoryPath hashFilePath : string)
    (t0 t1 : list Event) (filesInRepo changedFiles : list FileInfo)
    (F : FileInfo) (request : string) (resp : GenerateContentResponse) :
  configured w owner repo directoryPath hashFilePath →
  getFilesInDirectory w owner repo directoryPath = (t0, Return filesInRepo) →
  loadAndDetectDiffs w filesInRepo hashFilePath = (t1, Return changedFiles) →
  NoDup (List.map path changedFiles) →
  F ∈ changedFiles →
  responds w (content_url F) request resp →
  candidates resp = None ∨ candidates resp = Some [] →
  translate_and_write w F
  = (translation_requests w (content_url F) request, Return tt)
  ∧ ∀ t r, script w = (t, r) →
      (∀ content ok, WriteTextFile (path F) (Text content) ok ∉ t)
      ∧ (∀ target record ok,
           WriteTextFile target (JSON_stringify record) ok ∈ t →
           target = hashFilePath
           ∧ record = newHashes changedFiles
           ∧ record !! path F = Some (sha F))
      ∧ (r = Exit 0 →
         committed t = Some (hashFilePath, newHashes changedFiles)).
Proof.
  intros Hconf Hlist Hdiff Hnd HF Hresp Hnone.
  assert (translate_and_write w F
          = (translation_requests w (content_url F) request, Return tt))
    as Hskip.
  { unfold translate_and_write.
    rewrite (translateText_responds w _ _ _ Hresp), bind_Return.
    unfold prefixed, translation_requests.
    by destruct Hnone as [-> | ->]. }
  split; [done|]. intros t r Hrun.
  pose proof (listing_and_load_quiet _ _ _ _ _ _ _ _ _ _ Hlist Hdiff)
    as Hquiet.
  rewrite (main_run _ _ _ _ _ _ _ _ _ Hconf Hlist Hdiff) in Hrun.
  assert ((0 <? length changedFiles)%nat = true) as Hlen.
  { destruct changedFiles; [by apply elem_of_nil in HF|done]. }
  rewrite Hlen in Hrun.
  destruct (process_and_commit_outcome w changedFiles hashFilePath)
    as (tl & rl & Hloop & Hc & _ & Hx & Hp).
  assert (∀ content ok, WriteTextFile (path F) (Text content) ok ∉ tl)
    as Hloop_writes.
  { intros content ok Hin.
    replace tl with (for_of changedFiles (translate_and_write w)).1 in Hin
      by by rewrite Hloop.
    apply for_of_events in Hin as (G & HG & Hin).
    pose proof (translate_and_write_concerns w G) as Hcon.
    rewrite Forall_forall in Hcon. destruct (Hcon _ Hin) as [Hpath _].
    assert (G = F) as -> by by eapply same_path_same_file.
    rewrite Hskip in Hin. cbn in Hin.
    by repeat (apply elem_of_cons in Hin as [?|Hin]; [done|]);
       apply elem_of_nil in Hin. }
  assert (∀ e, e ∈ t0 ++ t1 → processes e = false) as Hpre.
  { intros e. by apply quiet_not_processing. }
  rewrite Hp in Hrun. unfold prefixed in Hrun.
  destruct rl as [[]|e|code]; cbn [fst snd] in Hrun;
    injection Hrun as <- <-.
  - split; [|split].
    + intros content ok [Hin|[Hin|Hin]%elem_of_app]%elem_of_app.
      * by apply Hpre in Hin.
      * by apply Hloop_writes in Hin.
      * by apply list_elem_of_singleton in Hin.
    + intros target record ok [Hin|[Hin|Hin]%elem_of_app]%elem_of_app.
      * by apply Hpre in Hin.
      * by apply not_commit_elem in Hin.
      * apply list_elem_of_singleton in Hin as [= -> -> ->].
        repeat split. by apply newHashes_listed.
    + destruct (Deno_writeTextFile w _ _); [|done]. intros _.
      by rewrite !app_assoc, committed_snoc.
  - split; [|split; [|done]].
    + intros content ok [Hin|Hin]%elem_of_app.
      * by apply Hpre in Hin.
      * by apply Hloop_writes in Hin.
    + intros target record ok [Hin|Hin]%elem_of_app.
      * by apply Hpre in Hin.
      * by apply not_commit_elem in Hin.
  - split; [|split].
    + intros content ok [Hin|Hin]%elem_of_app.
      * by apply Hpre in Hin.
      * by apply Hloop_writes in Hin.
    + intros target record ok [Hin|Hin]%elem_of_app.
      * by apply Hpre in Hin.
      * by apply not_commit_elem in Hin.
    + intros [= ->]. by specialize (Hx _ eq_refl).
Qed.

Lemma skipping_responds :
  responds skipping_world (content_url docs_b) (request_for docs_b)
    {| candidates := Some [] |}.
Proof.
  exists (content_url docs_b), "prompt". repeat split; reflexivity.
Qed.

Lemma docs_listing_NoDup : NoDup (List.map path docs_listing).
Proof. apply (bool_decide_unpack _). vm_compute. exact I. Qed.

Lemma skipped_file_is_not_written_but_committed_witness :
  configured skipping_world "owner" "repo" "docs" "hashes.json"
  ∧ getFilesInDirectory skipping_world "owner" "repo" "docs"
    = ([ReposGet "owner" "repo"; GitGetTree "owner" "repo" "main"],
       Return docs_listing)
  ∧ loadAndDetectDiffs skipping_world docs_listing "hashes.json"
    = ([ReadTextFile "hashes.json"], Return docs_listing)
  ∧ NoDup (List.map path docs_listing)
  ∧ docs_b ∈ docs_listing
  ∧ responds skipping_world (content_url docs_b) (request_for docs_b)
      {| candidates := Some [] |}
  ∧ translate_and_write skipping_world docs_b
    = (translation_requests skipping_world (content_url docs_b)
         (request_for docs_b), Return tt)
  ∧ ∀ t r, script skipping_world = (t, r) →
      (∀ content ok, WriteTextFile "docs/b.md" (Text content) ok ∉ t)
      ∧ (∀ target record ok,
           WriteTextFile target (JSON_stringify record) ok ∈ t →
           target = "hashes.json"
           ∧ record = newHashes docs_listing
           ∧ record !! "docs/b.md" = Some "sha2")
      ∧ (r = Exit 0 →
         committed t = Some ("hashes.json", newHashes docs_listing)).
Proof.
  assert (docs_b ∈ docs_listing) as Hin
    by (apply list_elem_of_In; cbn; tauto).
  split; [apply sample_configured|]. split; [reflexivity|].
  split; [reflexivity|]. split; [apply docs_listing_NoDup|].
  split; [exact Hin|]. split; [apply skipping_responds|].
  apply (skipped_file_is_not_written_but_committed skipping_world
           "owner" "repo" "docs" "hashes.json"
           [ReposGet "owner" "repo"; GitGetTree "owner" "repo" "main"]
           [ReadTextFile "hashes.json"] docs_listing docs_listing docs_b
           (request_for docs_b) {| candidates := Some [] |});
    [apply sample_configured|reflexivity|reflexivity
    |apply docs_listing_NoDup|exact Hin|apply skipping_responds
    |by right].
Defined.

(** C1 as stated fails: the service has no candidate for [docs/b.md], the
    run writes only [docs/a.md], and yet the mapping it commits holds the
    fingerprint of [docs/b.md]. *)
Lemma skipped_file_fingerprint_is_committed :
  responds skipping_world (content_url docs_b) (request_for docs_b)
    {| candidates := Some [] |}
  ∧ script skipping_world
    = ([ReposGet "owner" "repo"; GitGetTree "owner" "repo" "main";
        ReadTextFile "hashes.json";
        Fetch (content_url docs_a); Fetch "prompt";
        GenerateContent "project" "location" "model" 8192
          (request_for docs_a);
        WriteTextFile "docs/a.md" (Text "translated") true;
        Fetch (content_url docs_b); Fetch "prompt";
        GenerateContent "project" "location" "model" 8192
          (request_for docs_b);
        WriteTextFile "hashes.json"
          (JSON_stringify {[ "docs/a.md" := "sha1"; "docs/b.md" := "sha2" ]})
          true],
       Exit 0)
  ∧ committed (script skipping_world).1
    = Some ("hashes.json",
            {[ "docs/a.md" := "sha1"; "docs/b.md" := "sha2" ]})
  ∧ ({[ "docs/a.md" := "sha1"; "docs/b.md" := "sha2" ]} : gmap string string)
      !! path docs_b = Some (sha docs_b).
Proof.
  split; [apply skipping_responds|]. by vm_compute.
Qed.

(** ** The scenario of the specification *)

Lemma for_of_singleton {A B} (body : A → IO unit) (x : A) (k : IO B) :
  (for_of [x] body ;;; k) = (body x ;;; k).
Proof.
  cbn [for_of]. destruct (body x) as [t [[]| |]]; [|done..].
  destruct k as [t' r]. cbn. by rewrite app_nil_r.
Qed.

(** C2, as the code has it: with [a.md] recorded under its current
    fingerprint and [b.md] new, the change set is [b.md] alone, every
    fetch, call of the service and write of a translation is made for
    [b.md], and the document committed is the mapping of [b.md] alone: the
    entry of the unchanged [a.md] is not carried forward. *)
Theorem scenario_commits_processed_file_only (w : World)
    (hashFilePath url_a url_b : string) :
  let a_md := {| path := "a.md"; sha := "sha1"; content_url := url_a |} in
  let b_md := {| path := "b.md"; sha := "sha2"; content_url := url_b |} in
  let document : gmap string string := {[ "b.md" := "sha2" ]} in
  Deno_readTextFile w hashFilePath
  = inr (Serialized (JObject {[ "a.md" := JString "sha1" ]})) →
  loadAndDetectDiffs w [a_md; b_md] hashFilePath
  = ([ReadTextFile hashFilePath], Return [b_md])
  ∧ synchronize w [a_md; b_md] hashFilePath
    = prefixed [ReadTextFile hashFilePath]
        (translate_and_write w b_md ;;;
         saveHashToJson w (JSON_stringify document) hashFilePath ;;;
         Deno_exit 0)
  ∧ ∀ t r, synchronize w [a_md; b_md] hashFilePath = (t, r) →
      (∀ e, e ∈ t → processes e = true →
            concerns w b_md e
            ∨ ∃ ok, e = WriteTextFile hashFilePath (JSON_stringify document)
                          ok)
      ∧ (r = Exit 0 → committed t = Some (hashFilePath, document)).
Proof.
  intros a_md b_md document Hread.
  assert (loadAndDetectDiffs w [a_md; b_md] hashFilePath
          = ([ReadTextFile hashFilePath], Return [b_md])) as Hdiff.
  { rewrite (loadAndDetectDiffs_stored _ _ _ _ Hread) by done.
    unfold changed. cbn [List.filter member path sha a_md b_md].
    by rewrite lookup_singleton_eq, lookup_singleton_ne. }
  assert (newHashes [b_md] = document) as Hdoc.
  { unfold newHashes. cbn. by rewrite insert_empty. }
  split; [done|].
  rewrite (synchronize_run _ _ _ _ _ Hdiff). cbn [length Nat.ltb Nat.leb].
  split.
  { unfold process_and_commit. by rewrite for_of_singleton, Hdoc. }
  intros t r Hrun.
  destruct (process_and_commit_outcome w [b_md] hashFilePath)
    as (tl & rl & Hloop & Hc & _ & Hx & Hp).
  rewrite Hdoc in Hp.
  assert (∀ e, e ∈ tl → concerns w b_md e) as Hloop_events.
  { intros e Hin.
    replace tl with (for_of [b_md] (translate_and_write w)).1 in Hin
      by by rewrite Hloop.
    apply for_of_events in Hin as (G & ->%list_elem_of_singleton & Hin).
    pose proof (translate_and_write_concerns w b_md) as Hcon.
    rewrite Forall_forall in Hcon. by apply Hcon. }
  rewrite Hp in Hrun. unfold prefixed in Hrun.
  destruct rl as [[]|e|code]; cbn [fst snd app] in Hrun;
    injection Hrun as <- <-.
  - split.
    + intros e [->|[Hin|Hin]%elem_of_app]%elem_of_cons Hproc; [done|..].
      * left. by apply Hloop_events.
      * right. apply list_elem_of_singleton in Hin as ->. by eexists.
    + destruct (Deno_writeTextFile w _ _); [|done]. intros _.
      by rewrite app_comm_cons, committed_snoc.
  - split; [|done].
    intros e' [->|Hin]%elem_of_cons Hproc; [done|].
    left. by apply Hloop_events.
  - split.
    + intros e' [->|Hin]%elem_of_cons Hproc; [done|].
      left. by apply Hloop_events.
    + intros [= ->]. by specialize (Hx _ eq_refl).
Qed.

Lemma scenario_commits_processed_file_only_witness :
  Deno_readTextFile scenario_world "hashes.json"
  = inr (Serialized (JObject {[ "a.md" := JString "sha1" ]}))
  ∧ loadAndDetectDiffs scenario_world scenario_listing "hashes.json"
    = ([ReadTextFile "hashes.json"], Return [raw_file "b.md" "sha2"])
  ∧ synchronize scenario_world scenario_listing "hashes.json"
    = prefixed [ReadTextFile "hashes.json"]
        (translate_and_write scenario_world (raw_file "b.md" "sha2") ;;;
         saveHashToJson scenario_world
           (JSON_stringify {[ "b.md" := "sha2" ]}) "hashes.json" ;;;
         Deno_exit 0)
  ∧ ∀ t r, synchronize scenario_world scenario_listing "hashes.json"
           = (t, r) →
      (∀ e, e ∈ t → processes e = true →
            concerns scenario_world (raw_file "b.md" "sha2") e
            ∨ ∃ ok, e = WriteTextFile "hashes.json"
                          (JSON_stringify {[ "b.md" := "sha2" ]}) ok)
      ∧ (r = Exit 0 →
         committed t = Some ("hashes.json", {[ "b.md" := "sha2" ]})).
Proof.
  split; [reflexivity|].
  apply (scenario_commits_processed_file_only scenario_world "hashes.json"
           "raw/a.md" "raw/b.md").
  reflexivity.
Defined.

(** C2 as stated fails: in the scenario the run commits the mapping of
    [b.md] alone, which is not the document with both entries. *)
Lemma unchanged_entry_is_not_carried_forward :
  Deno_readTextFile scenario_world "hashes.json"
  = inr (Serialized (JObject {[ "a.md" := JString "sha1" ]}))
  ∧ scenario_listing
    = [ {| path := "a.md"; sha := "sha1"; content_url := "raw/a.md" |};
        {| path := "b.md"; sha := "sha2"; content_url := "raw/b.md" |} ]
  ∧ synchronize scenario_world scenario_listing "hashes.json"
    = ([ReadTextFile "hashes.json";
        Fetch "raw/b.md"; Fetch "prompt";
        GenerateContent "project" "location" "model" 8192
          ("prompt" +:+ LF +:+ "raw/b.md");
        WriteTextFile "b.md" (Text "translated") true;
        WriteTextFile "hashes.json" (JSON_stringify {[ "b.md" := "sha2" ]})
          true],
       Exit 0)
  ∧ committed (synchronize scenario_world scenario_listing "hashes.json").1
    = Some ("hashes.json", {[ "b.md" := "sha2" ]})
  ∧ ({[ "b.md" := "sha2" ]} : gmap string string)
    ≠ {[ "a.md" := "sha1"; "b.md" := "sha2" ]}.
Proof.
  do 4 (split; [by vm_compute|]).
  intros H. apply (f_equal (fun m => m !! "a.md")) in H.
  vm_compute in H. discriminate.
Qed.

(** ** Running twice *)

Lemma filter_none {A} (p : A → bool) (l : list A) :
  (∀ x, x ∈ l → p x = false) → List.filter p l = [].
Proof.
  induction l as [|x l IH]; intros H; [done|]. cbn [List.filter].
  rewrite (H x) by left. apply IH. intros y Hy. apply H. by right.
Qed.

Lemma recorded_files_unchanged (filesInRepo : list FileInfo) :
  NoDup (List.map path filesInRepo) →
  List.filter (changed (parsed_record (newHashes filesInRepo))) filesInRepo
  = [].
Proof.
  intros Hnd. apply filter_none. intros F HF.
  unfold changed, parsed_record. cbn [member].
  rewrite lookup_fmap, (newHashes_listed _ _ Hnd HF). cbn.
  by rewrite String.eqb_refl.
Qed.

(** C3, as the code has it: when the first run completes and its change
    set is empty or the whole listing (paths being unique), a second run
    over the same listing fetches, transforms and writes nothing and
    leaves the fingerprint document as the first run left it. *)
Theorem second_run_is_idle_after_full_run (w : World)
    (owner repo directoryPath hashFilePath : string)
    (t0 t1 : list Event) (filesInRepo changedFiles : list FileInfo) :
  configured w owner repo directoryPath hashFilePath →
  getFilesInDirectory w owner repo directoryPath = (t0, Return filesInRepo) →
  NoDup (List.map path filesInRepo) →
  loadAndDetectDiffs w filesInRepo hashFilePath = (t1, Return changedFiles) →
  changedFiles = [] ∨ changedFiles = filesInRepo →
  (script w).2 = Exit 0 →
  script (after_run w) = (t0 ++ [ReadTextFile hashFilePath], Exit 0)
  ∧ idle (t0 ++ [ReadTextFile hashFilePath])
  ∧ after_run (after_run w) = after_run w.
Proof.
  intros Hconf Hlist Hnd Hdiff Hcs Hok.
  pose proof (listing_and_load_quiet _ _ _ _ _ _ _ _ _ _ Hlist Hdiff)
    as Hquiet.
  assert (t1 = [ReadTextFile hashFilePath]) as ->.
  { destruct (loadAndDetectDiffs_outcome w filesInRepo hashFilePath)
      as (r' & Ht' & _). congruence. }
  pose proof (committed_None _ (commit_processes _ Hquiet)) as Hnone.
  pose proof (main_run _ _ _ _ _ _ _ _ _ Hconf Hlist Hdiff) as Hrun.
  assert (∀ w', script w' = (t0 ++ [ReadTextFile hashFilePath], Exit 0) →
                script w' = (t0 ++ [ReadTextFile hashFilePath], Exit 0)
                ∧ idle (t0 ++ [ReadTextFile hashFilePath])
                ∧ after_run w' = w') as Hstable.
  { intros w' Hw'. split; [done|]. split; [by apply idle_forallb|].
    unfold after_run, next_world. rewrite Hw'. cbn [fst].
    by rewrite Hnone. }
  destruct changedFiles as [|c cs].
  { cbn in Hrun. assert (after_run w = w) as ->; [|by apply Hstable].
    unfold after_run, next_world. rewrite Hrun. cbn [fst].
    by rewrite Hnone. }
  destruct Hcs as [|Hcs]; [done|]. subst filesInRepo.
  set (filesInRepo := c :: cs) in *.
  change (0 <? length filesInRepo)%nat with true in Hrun.
  cbn match in Hrun.
  destruct (process_and_commit_outcome w filesInRepo hashFilePath)
    as (tl & rl & _ & _ & _ & Hx & Hp).
  rewrite Hrun, Hp in Hok.
  assert (script w
          = ((t0 ++ [ReadTextFile hashFilePath]) ++ tl
             ++ [WriteTextFile hashFilePath
                   (JSON_stringify (newHashes filesInRepo)) true],
             Exit 0)) as Hfirst.
  { rewrite Hrun, Hp. unfold prefixed in *.
    destruct rl as [[]|e|code]; cbn [fst snd] in *; [|done|].
    - by destruct (Deno_writeTextFile w _ _).
    - injection Hok as ->. by specialize (Hx _ eq_refl). }
  assert (after_run w
          = {| Deno_env_get := Deno_env_get w;
               repos_get := repos_get w;
               git_getTree := git_getTree w;
               Deno_readTextFile := fun target =>
                 if decide (target = hashFilePath)
                 then inr (Serialized (parsed_record (newHashes filesInRepo)))
                 else Deno_readTextFile w target;
               fetch := fetch w;
               generateContent := generateContent w;
               Deno_writeTextFile := Deno_writeTextFile w |}) as Hw'.
  { unfold after_run, next_world. rewrite Hfirst. cbn [fst].
    by rewrite app_assoc, committed_snoc. }
  rewrite Hw'. set (w' := {| Deno_env_get := _ |}). apply Hstable.
  assert (loadAndDetectDiffs w' filesInRepo hashFilePath
          = ([ReadTextFile hashFilePath], Return [])) as Hdiff'.
  { rewrite <- (recorded_files_unchanged _ Hnd).
    apply loadAndDetectDiffs_stored; [|done].
    cbn. by rewrite decide_True. }
  by rewrite (main_run w' owner repo directoryPath hashFilePath t0
                filesInRepo _ _ Hconf Hlist Hdiff').
Qed.

Lemma second_run_is_idle_after_full_run_witness :
  configured fresh_world "owner" "repo" "docs" "hashes.json"
  ∧ getFilesInDirectory fresh_world "owner" "repo" "docs"
    = ([ReposGet "owner" "repo"; GitGetTree "owner" "repo" "main"],
       Return docs_listing)
  ∧ NoDup (List.map path docs_listing)
  ∧ loadAndDetectDiffs fresh_world docs_listing "hashes.json"
    = ([ReadTextFile "hashes.json"], Return docs_listing)
  ∧ (script fresh_world).2 = Exit 0
  ∧ script (after_run fresh_world)
    = ([ReposGet "owner" "repo"; GitGetTree "owner" "repo" "main"]
       ++ [ReadTextFile "hashes.json"], Exit 0)
  ∧ idle ([ReposGet "owner" "repo"; GitGetTree "owner" "repo" "main"]
          ++ [ReadTextFile "hashes.json"])
  ∧ after_run (after_run fresh_world) = after_run fresh_world.
Proof.
  split; [apply sample_configured|]. split; [reflexivity|].
  split; [apply docs_listing_NoDup|]. split; [reflexivity|].
  split; [reflexivity|].
  apply (second_run_is_idle_after_full_run fresh_world
           "owner" "repo" "docs" "hashes.json"
           [ReposGet "owner" "repo"; GitGetTree "owner" "repo" "main"]
           [ReadTextFile "hashes.json"] docs_listing docs_listing);
    [apply sample_configured|reflexivity|apply docs_listing_NoDup
    |reflexivity|by right|reflexivity].
Defined.

(** C3 as stated fails: with [docs/a.md] recorded and [docs/b.md] new, the
    first run commits the mapping of [docs/b.md] alone; the second run,
    over the same listing, then translates [docs/a.md] again and replaces
    the document by the mapping of [docs/a.md] alone. *)
Lemma second_run_translates_again :
  (script tracked_world).2 = Exit 0
  ∧ committed (script tracked_world).1
    = Some ("hashes.json", {[ "docs/b.md" := "sha2" ]})
  ∧ Deno_readTextFile (after_run tracked_world) "hashes.json"
    = inr (Serialized (JObject {[ "docs/b.md" := JString "sha2" ]}))
  ∧ script (after_run tracked_world)
    = ([ReposGet "owner" "repo"; GitGetTree "owner" "repo" "main";
        ReadTextFile "hashes.json";
        Fetch (content_url docs_a); Fetch "prompt";
        GenerateContent "project" "location" "model" 8192
          (request_for docs_a);
        WriteTextFile "docs/a.md" (Text "translated") true;
        WriteTextFile "hashes.json"
          (JSON_stringify {[ "docs/a.md" := "sha1" ]}) true],
       Exit 0)
  ∧ existsb processes (script (after_run tracked_world)).1 = true
  ∧ Deno_readTextFile (after_run (after_run tracked_world)) "hashes.json"
    = inr (Serialized (JObject {[ "docs/a.md" := JString "sha1" ]}))
  ∧ Deno_readTextFile (after_run (after_run tracked_world)) "hashes.json"
    ≠ Deno_readTextFile (after_run tracked_world) "hashes.json".
Proof.
  do 6 (split; [by vm_compute|]). vm_compute. discriminate.
Qed.

(** * Further properties of the script *)

(** ** Strings *)

Lemma append_cons a (s t : string) : String a s +:+ t = String a (s +:+ t).
Proof. reflexivity. Qed.

Lemma append_empty_r (s : string) : s +:+ "" = s.
Proof.
  induction s as [|a s IH]; [done|]. by rewrite append_cons, IH.
Qed.

Lemma append_assoc (s1 s2 s3 : string) :
  (s1 +:+ s2) +:+ s3 = s1 +:+ (s2 +:+ s3).
Proof.
  induction s1 as [|a s1 IH]; [done|]. by rewrite !append_cons, IH.
Qed.

Lemma startsWith_true s searchString :
  startsWith s searchString = true ↔ ∃ rest, s = searchString +:+ rest.
Proof.
  unfold startsWith. revert s.
  induction searchString as [|a p IH]; intros s.
  { split; [by exists s|by destruct s]. }
  destruct s as [|b s]; cbn [String.prefix].
  { split; [done|]. by intros [rest [=]]. }
  destruct (ascii_dec a b) as [->|Hne].
  - rewrite IH. split; intros [rest Hrest]; exists rest.
    + by rewrite append_cons, Hrest.
    + rewrite append_cons in Hrest. by injection Hrest.
  - split; [done|]. intros [rest Hrest].
    rewrite append_cons in Hrest. by injection Hrest.
Qed.

Lemma rev_app_append s1 s2 acc :
  String.rev_app (s1 +:+ s2) acc = String.rev_app s2 (String.rev_app s1 acc).
Proof.
  revert acc. induction s1 as [|a s1 IH]; intros acc; [done|].
  rewrite append_cons. cbn [String.rev_app]. apply IH.
Qed.

Lemma rev_app_rev s acc : String.rev_app s acc = String.rev s +:+ acc.
Proof.
  unfold String.rev. revert acc.
  induction s as [|a s IH]; intros acc; [done|]. cbn [String.rev_app].
  by rewrite IH, (IH (String a "")), append_assoc.
Qed.

Lemma rev_append s1 s2 :
  String.rev (s1 +:+ s2) = String.rev s2 +:+ String.rev s1.
Proof.
  unfold String.rev at 1. rewrite rev_app_append, rev_app_rev.
  done.
Qed.

Lemma rev_app_twice s acc acc' :
  String.rev_app (String.rev_app s acc) acc'
  = String.rev_app acc (s +:+ acc').
Proof.
  revert acc acc'. induction s as [|a s IH]; intros acc acc'; [done|].
  cbn [String.rev_app]. by rewrite IH, append_cons.
Qed.

Lemma rev_involutive s : String.rev (String.rev s) = s.
Proof.
  unfold String.rev. rewrite rev_app_twice. cbn [String.rev_app].
  apply append_empty_r.
Qed.

Lemma endsWith_true s searchString :
  endsWith s searchString = true ↔ ∃ front, s = front +:+ searchString.
Proof.
  unfold endsWith. fold (startsWith (String.rev s) (String.rev searchString)).
  rewrite startsWith_true. split.
  - intros [rest Hrest]. exists (String.rev rest).
    by rewrite <- (rev_involutive s), Hrest, rev_append, rev_involutive.
  - intros [front ->]. exists (String.rev front). apply rev_append.
Qed.

(** ** The listing *)

Section Listing.

Variable w : World.
Variables owner repo dir : string.

Lemma getFilesInDirectory_returns t files :
  getFilesInDirectory w owner repo dir = (t, Return files) →
  ∃ extention branch tree,
    Deno_env_get w "TARGET_FILE_EXTENSION" = Some extention
    ∧ extention ≠ ""
    ∧ repos_get w owner repo = Some branch
    ∧ git_getTree w owner repo branch = Some tree
    ∧ t = [ReposGet owner repo; GitGetTree owner repo branch]
    ∧ files
      = List.map (fun item =>
          {| path := narrowed (item_path item);
             sha := narrowed (item_sha item);
             content_url :=
               "https://raw.githubusercontent.com/" +:+ owner +:+ "/"
               +:+ repo +:+ "/" +:+ branch +:+ "/"
               +:+ narrowed (item_path item) |})
          (List.filter (wanted dir extention) tree).
Proof.
  unfold getFilesInDirectory.
  destruct (Deno_env_get w "TARGET_FILE_EXTENSION") as [extention|] eqn:Hext;
    [|done].
  destruct (truthy (Some extention)) eqn:Htruthy; [|done]. cbn [negb].
  destruct (repos_get w owner repo) as [branch|] eqn:Hbranch; [|done].
  destruct (git_getTree w owner repo branch) as [tree|] eqn:Htree; cbn;
    [|by rewrite Htree].
  rewrite Htree. cbn. intros [= <- <-].
  exists extention, branch, tree. repeat split; try done.
  intros ->. done.
Qed.

Lemma wanted_true extention item :
  wanted dir extention item = true ↔
  ∃ p s, item = {| item_path := Some p; item_type := Some "blob";
                   item_sha := Some s |}
         ∧ startsWith p dir = true ∧ endsWith p extention = true.
Proof.
  unfold wanted. destruct item as [[p|] ty [s|]]; cbn;
    rewrite ?andb_true_iff, ?bool_decide_eq_true.
  - split.
    + intros [[[Hp ->] He] _]. by exists p, s.
    + by intros (p' & s' & [= -> -> ->] & Hp & He).
  - split; [by intros [_ Hs]|by intros (p' & s' & [=] & _)].
  - split; [done|by intros (p' & s' & [=] & _)].
  - split; [done|by intros (p' & s' & [=] & _)].
Qed.

End Listing.

(** X1: a file is listed exactly when the tree has a blob entry with that
    path and fingerprint whose path begins with the directory and ends
    with the extension; its content reference is the raw URL of that path
    on the default branch. *)
Theorem listing_is_the_filtered_tree (w : World) (owner repo dir : string)
    (t : list Event) (files : list FileInfo) :
  getFilesInDirectory w owner repo dir = (t, Return files) →
  ∃ extention branch tree,
    Deno_env_get w "TARGET_FILE_EXTENSION" = Some extention
    ∧ repos_get w owner repo = Some branch
    ∧ git_getTree w owner repo branch = Some tree
    ∧ ∀ f, f ∈ files ↔
        {| item_path := Some (path f); item_type := Some "blob";
           item_sha := Some (sha f) |} ∈ tree
        ∧ (∃ rest, path f = dir +:+ rest)
        ∧ (∃ front, path f = front +:+ extention)
        ∧ content_url f
          = "https://raw.githubusercontent.com/" +:+ owner +:+ "/"
            +:+ repo +:+ "/" +:+ branch +:+ "/" +:+ path f.
Proof.
  intros (extention & branch & tree & Hext & _ & Hbranch & Htree & _ & ->)
    %getFilesInDirectory_returns.
  exists extention, branch, tree. do 3 (split; [done|]).
  intros f. rewrite list_elem_of_In, in_map_iff.
  setoid_rewrite filter_In. setoid_rewrite wanted_true.
  setoid_rewrite <- startsWith_true. setoid_rewrite <- endsWith_true.
  setoid_rewrite <- list_elem_of_In. split.
  - intros (item & <- & Hin & p & s & -> & Hp & He). by cbn.
  - intros (Hin & Hp & He & Hurl). eexists. split; [|split; [done|]].
    + destruct f as [p s u]. cbn in *. by rewrite Hurl.
    + by eexists _, _.
Qed.

Lemma listing_is_the_filtered_tree_witness :
  getFilesInDirectory fresh_world "owner" "repo" "docs"
  = ([ReposGet "owner" "repo"; GitGetTree "owner" "repo" "main"],
     Return docs_listing)
  ∧ ∃ extention branch tree,
      Deno_env_get fresh_world "TARGET_FILE_EXTENSION" = Some extention
      ∧ repos_get fresh_world "owner" "repo" = Some branch
      ∧ git_getTree fresh_world "owner" "repo" branch = Some tree
      ∧ ∀ f, f ∈ docs_listing ↔
          {| item_path := Some (path f); item_type := Some "blob";
             item_sha := Some (sha f) |} ∈ tree
          ∧ (∃ rest, path f = "docs" +:+ rest)
          ∧ (∃ front, path f = front +:+ extention)
          ∧ content_url f
            = "https://raw.githubusercontent.com/" +:+ "owner" +:+ "/"
              +:+ "repo" +:+ "/" +:+ branch +:+ "/" +:+ path f.
Proof.
  split; [reflexivity|].
  apply (listing_is_the_filtered_tree fresh_world "owner" "repo" "docs"
           [ReposGet "owner" "repo"; GitGetTree "owner" "repo" "main"]).
  reflexivity.
Defined.

Lemma listed_paths_sublist (owner repo dir branch extention : string)
    (tree : list TreeItem) :
  List.map path
    (List.map (fun item =>
       {| path := narrowed (item_path item);
          sha := narrowed (item_sha item);
          content_url :=
            "https://raw.githubusercontent.com/" +:+ owner +:+ "/"
            +:+ repo +:+ "/" +:+ branch +:+ "/"
            +:+ narrowed (item_path item) |})
       (List.filter (wanted dir extention) tree))
  `sublist_of` omap item_path tree.
Proof.
  induction tree as [|item tree IH]; [done|]. cbn [List.filter].
  change (omap item_path (item :: tree))
    with (match item_path item with
          | Some p => p :: omap item_path tree
          | None => omap item_path tree
          end).
  destruct (wanted dir extention item) eqn:Hw.
  - apply wanted_true in Hw as (p & s & -> & _). cbn.
    by apply sublist_skip.
  - destruct (item_path item); [by apply sublist_cons|done].
Qed.

(** X2: the listing keeps the order of the tree, and when the paths of
    the tree are unique so are the paths of the listing. *)
Theorem listing_keeps_order_and_unique_paths (w : World)
    (owner repo dir branch : string) (tree : list TreeItem)
    (t : list Event) (files : list FileInfo) :
  repos_get w owner repo = Some branch →
  git_getTree w owner repo branch = Some tree →
  getFilesInDirectory w owner repo dir = (t, Return files) →
  List.map path files `sublist_of` omap item_path tree
  ∧ (NoDup (omap item_path tree) → NoDup (List.map path files)).
Proof.
  intros Hbranch Htree
    (extention & branch' & tree' & _ & _ & Hbranch' & Htree' & _ & ->)
    %getFilesInDirectory_returns.
  assert (branch' = branch) as -> by congruence.
  assert (tree' = tree) as -> by congruence.
  pose proof (listed_paths_sublist owner repo dir branch extention tree)
    as Hsub.
  split; [done|]. intros Hnd. by eapply sublist_NoDup.
Qed.

Lemma listing_keeps_order_and_unique_paths_witness :
  repos_get fresh_world "owner" "repo" = Some "main"
  ∧ git_getTree fresh_world "owner" "repo" "main" = Some docs_tree
  ∧ getFilesInDirectory fresh_world "owner" "repo" "docs"
    = ([ReposGet "owner" "repo"; GitGetTree "owner" "repo" "main"],
       Return docs_listing)
  ∧ List.map path docs_listing `sublist_of` omap item_path docs_tree
  ∧ (NoDup (omap item_path docs_tree) → NoDup (List.map path docs_listing)).
Proof.
  split; [reflexivity|]. split; [reflexivity|]. split; [reflexivity|].
  apply (listing_keeps_order_and_unique_paths fresh_world "owner" "repo"
           "docs" "main" docs_tree
           [ReposGet "owner" "repo"; GitGetTree "owner" "repo" "main"]);
    reflexivity.
Defined.

(** ** Settings and failures of the listing *)

(** X3: when the access token, one of the four settings of [main] or the
    extension is missing or empty, the run ends with status 1 before
    making any request. *)
Theorem missing_setting_stops_before_any_request (w : World) :
  truthy (Deno_env_get w "GH_ACCESS_TOKEN") = false
  ∨ truthy (Deno_env_get w "GH_OWNER") = false
  ∨ truthy (Deno_env_get w "GH_REPO") = false
  ∨ truthy (Deno_env_get w "TARGET_DIRECTORY_PATH") = false
  ∨ truthy (Deno_env_get w "HASH_FILE_PATH") = false
  ∨ truthy (Deno_env_get w "TARGET_FILE_EXTENSION") = false →
  script w = ([], Exit 1).
Proof.
  intros H. unfold script, main, getFilesInDirectory.
  destruct (truthy (Deno_env_get w "GH_ACCESS_TOKEN")); [|done].
  destruct (truthy (Deno_env_get w "GH_OWNER")); [|done].
  destruct (truthy (Deno_env_get w "GH_REPO")); [|done].
  destruct (truthy (Deno_env_get w "TARGET_DIRECTORY_PATH")); [|done].
  destruct (truthy (Deno_env_get w "HASH_FILE_PATH")); [|done].
  destruct (truthy (Deno_env_get w "TARGET_FILE_EXTENSION")); [|done].
  by destruct H as [|[|[|[|[|]]]]].
Qed.

Lemma missing_setting_stops_before_any_request_witness :
  truthy (Deno_env_get no_extension_world "TARGET_FILE_EXTENSION") = false
  ∧ script no_extension_world = ([], Exit 1).
Proof.
  split; [reflexivity|].
  apply (missing_setting_stops_before_any_request no_extension_world).
  do 5 right. reflexivity.
Defined.

(** X4: when the repository cannot be resolved or its tree cannot be
    listed, the run ends with status 1 after the listing requests, without
    reading the fingerprint document. *)
Theorem listing_failure_is_fatal (w : World)
    (owner repo directoryPath hashFilePath : string) :
  configured w owner repo directoryPath hashFilePath →
  truthy (Deno_env_get w "TARGET_FILE_EXTENSION") = true →
  repos_get w owner repo = None
  ∨ (∃ branch, repos_get w owner repo = Some branch
               ∧ git_getTree w owner repo branch = None) →
  script w
  = (match repos_get w owner repo with
     | None => [ReposGet owner repo]
     | Some branch => [ReposGet owner repo; GitGetTree owner repo branch]
     end, Exit 1).
Proof.
  intros (Htok & Ho & Ho' & Hr & Hr' & Hd & Hd' & Hh & Hh') Hext Hfail.
  unfold script, main, getFilesInDirectory.
  rewrite Htok, Ho, Hr, Hd, Hh, Hext, !truthy_Some by done.
  cbn [negb orb].
  change (narrowed (Some owner)) with owner.
  change (narrowed (Some repo)) with repo.
  change (narrowed (Some directoryPath)) with directoryPath.
  destruct Hfail as [->|(branch & -> & Htree)]; [done|].
  rewrite bind_emit, bind_prefixed, bind_ret, Htree. done.
Qed.

Lemma listing_failure_is_fatal_witness :
  configured unresolved_world "owner" "repo" "docs" "hashes.json"
  ∧ truthy (Deno_env_get unresolved_world "TARGET_FILE_EXTENSION") = true
  ∧ repos_get unresolved_world "owner" "repo" = None
  ∧ script unresolved_world = ([ReposGet "owner" "repo"], Exit 1).
Proof.
  assert (configured unresolved_world "owner" "repo" "docs" "hashes.json")
    as Hconf by (repeat split; done).
  split; [exact Hconf|]. split; [reflexivity|]. split; [reflexivity|].
  apply (listing_failure_is_fatal unresolved_world "owner" "repo" "docs"
           "hashes.json" Hconf); [reflexivity|by left].
Defined.

(** ** Failures of the load *)

(** X5: a fingerprint file that exists but cannot be read ends the
    process with status 1; only a missing file is forgiven. *)
Theorem unreadable_document_is_fatal (w : World)
    (repoFiles : list FileInfo) (hashFilePath : string) (e : Error) :
  Deno_readTextFile w hashFilePath = inl e →
  e ≠ NotFound →
  loadAndDetectDiffs w repoFiles hashFilePath
  = ([ReadTextFile hashFilePath], Exit 1).
Proof.
  intros Hread He. unfold loadAndDetectDiffs, readTextFile.
  rewrite Hread, bind_emit. by destruct e.
Qed.

Lemma unreadable_document_is_fatal_witness :
  Deno_readTextFile unreadable_world "hashes.json" = inl Failure
  ∧ Failure ≠ NotFound
  ∧ loadAndDetectDiffs unreadable_world docs_listing "hashes.json"
    = ([ReadTextFile "hashes.json"], Exit 1).
Proof.
  split; [reflexivity|]. split; [discriminate|].
  apply (unreadable_document_is_fatal unreadable_world docs_listing
           "hashes.json" Failure); [reflexivity|discriminate].
Defined.

(** X6: a fingerprint document that holds [null] ends the process with
    status 1 as soon as there is a file to compare, and gives the empty
    change set for an empty listing. *)
Theorem null_document_is_fatal_unless_listing_empty (w : World)
    (repoFiles : list FileInfo) (hashFilePath : string) :
  Deno_readTextFile w hashFilePath = inr (Serialized JNull) →
  loadAndDetectDiffs w repoFiles hashFilePath
  = ([ReadTextFile hashFilePath],
     match repoFiles with [] => Return [] | _ :: _ => Exit 1 end).
Proof.
  intros Hread. unfold loadAndDetectDiffs, readTextFile.
  rewrite Hread, bind_emit, bind_prefixed, bind_ret. cbn [JSON_parse].
  rewrite bind_ret, detect_null. by destruct repoFiles.
Qed.

Lemma null_document_is_fatal_unless_listing_empty_witness :
  Deno_readTextFile null_world "hashes.json" = inr (Serialized JNull)
  ∧ loadAndDetectDiffs null_world docs_listing "hashes.json"
    = ([ReadTextFile "hashes.json"], Exit 1).
Proof.
  split; [reflexivity|].
  apply (null_document_is_fatal_unless_listing_empty null_world
           docs_listing "hashes.json").
  reflexivity.
Defined.

Lemma filter_sublist {A} (p : A → bool) (l : list A) :
  List.filter p l `sublist_of` l.
Proof.
  induction l as [|x l IH]; [done|]. cbn [List.filter].
  destruct (p x); [by apply sublist_skip|by apply sublist_cons].
Qed.

(** X7: whatever the state of the fingerprint document, a change set the
    load returns is a subsequence of the listing: files keep their order
    and none is invented or repeated. *)
Theorem change_set_is_a_subsequence (w : World)
    (repoFiles changedFiles : list FileInfo) (hashFilePath : string)
    (t : list Event) :
  loadAndDetectDiffs w repoFiles hashFilePath = (t, Return changedFiles) →
  changedFiles `sublist_of` repoFiles.
Proof.
  intros Hdiff.
  destruct (Deno_readTextFile w hashFilePath) as [e|[|v]] eqn:Hread.
  - assert (e = NotFound ∨ e ≠ NotFound) as [->|He]
      by (destruct e; eauto).
    + rewrite (loadAndDetectDiffs_missing _ _ _ Hread) in Hdiff.
      by injection Hdiff as _ <-.
    + by rewrite (unreadable_document_is_fatal _ _ _ _ Hread He) in Hdiff.
  - by rewrite (loadAndDetectDiffs_malformed _ _ _ Hread) in Hdiff.
  - assert (v = JNull ∨ v ≠ JNull) as [->|Hv] by (destruct v; eauto).
    + rewrite (null_document_is_fatal_unless_listing_empty _ _ _ Hread)
        in Hdiff.
      destruct repoFiles; [|done]. by injection Hdiff as _ <-.
    + rewrite (loadAndDetectDiffs_stored _ _ _ _ Hread Hv) in Hdiff.
      injection Hdiff as _ <-. apply filter_sublist.
Qed.

Lemma change_set_is_a_subsequence_witness :
  loadAndDetectDiffs tracked_world docs_listing "hashes.json"
  = ([ReadTextFile "hashes.json"], Return [docs_b])
  ∧ [docs_b] `sublist_of` docs_listing.
Proof.
  split; [reflexivity|].
  apply (change_set_is_a_subsequence tracked_world docs_listing [docs_b]
           "hashes.json" [ReadTextFile "hashes.json"]).
  reflexivity.
Defined.

(** ** The processing loop *)

Section Loop.

Variable w : World.

Lemma translate_and_write_shape file :
  ∃ t r, translate_and_write w file = (t, r)
         ∧ (output_targets t = [] ∨ output_targets t = [path file])
         ∧ (∀ e, r = Throw e → e = Failure).
Proof.
  unfold translate_and_write, translateText, fetch_text, writeFile,
    writeTextFile.
  destruct (fetch w (content_url file)); cbn;
    [|eexists _, _; split; [done|split; [by left|by intros ? [= <-]]]].
  destruct (truthy (Deno_env_get w "VERTEX_AI_PROJECT_ID")); cbn;
    [|eexists _, _; split; [done|split; [by left|done]]].
  destruct (truthy (Deno_env_get w "VERTEX_AI_LOCATION")); cbn;
    [|eexists _, _; split; [done|split; [by left|done]]].
  destruct (truthy (Deno_env_get w "VERTEX_AI_MODEL")); cbn;
    [|eexists _, _; split; [done|split; [by left|done]]].
  destruct (truthy (Deno_env_get w "PROMPT_URL")); cbn;
    [|eexists _, _; split; [done|split; [by left|done]]].
  destruct (fetch w _); cbn;
    [|eexists _, _; split; [done|split; [by left|by intros ? [= <-]]]].
  destruct (generateContent w _ _ _ _ _) as [[[[|c cs]|]]|]; cbn;
    try (eexists _, _; split; [done|split; [by left|done]]);
    [|eexists _, _; split; [done|split; [by left|by intros ? [= <-]]]].
  destruct (Deno_writeTextFile w _ _); cbn;
    eexists _, _; (split; [done|split; [by right|done]]).
Qed.

Lemma output_targets_app t t' :
  output_targets (t ++ t') = output_targets t ++ output_targets t'.
Proof. apply flat_map_app. Qed.

Lemma for_of_shape (changedFiles : list FileInfo) :
  ∃ t r, for_of changedFiles (translate_and_write w) = (t, r)
         ∧ output_targets t `sublist_of` List.map path changedFiles
         ∧ (∀ e, r = Throw e → e = Failure).
Proof.
  induction changedFiles as [|file rest (t' & r' & Hrest & Hsub & Hthrow)].
  { exists [], (Return tt). by cbn. }
  destruct (translate_and_write_shape file) as (t & r & Hfile & Hout & He).
  cbn [for_of List.map]. rewrite Hfile.
  assert (output_targets t `sublist_of` [path file]) as Hone.
  { destruct Hout as [-> | ->]; [apply sublist_nil_l|done]. }
  change (path file :: List.map path rest)
    with ([path file] ++ List.map path rest).
  destruct r as [[]|e|code].
  - rewrite bind_Return, Hrest. unfold prefixed. cbn [fst snd].
    eexists _, _. split; [done|]. split; [|done].
    rewrite output_targets_app. by apply sublist_app.
  - eexists _, _. split; [done|]. split; [|done].
    by apply sublist_inserts_r.
  - eexists _, _. split; [done|]. split; [|done].
    by apply sublist_inserts_r.
Qed.

Lemma for_of_stops (changedFiles : list FileInfo) F :
  F ∈ changedFiles →
  (translate_and_write w F).2 ≠ Return tt →
  (for_of changedFiles (translate_and_write w)).2 ≠ Return tt.
Proof.
  intros HF Hstop.
  induction changedFiles as [|file rest IH]; [by apply elem_of_nil in HF|].
  cbn [for_of].
  destruct (translate_and_write w file) as [t [[]|e|code]] eqn:Hfile;
    [|done..].
  apply elem_of_cons in HF as [->|HF]; [by rewrite Hfile in Hstop|].
  rewrite bind_Return. unfold prefixed. cbn [snd]. by apply IH.
Qed.

End Loop.

(** ** Missing settings of the service *)

Lemma translate_and_write_unset (w : World) (f : FileInfo) :
  is_Some (fetch w (content_url f)) →
  truthy (Deno_env_get w "VERTEX_AI_PROJECT_ID") = false
  ∨ truthy (Deno_env_get w "VERTEX_AI_LOCATION") = false
  ∨ truthy (Deno_env_get w "VERTEX_AI_MODEL") = false
  ∨ truthy (Deno_env_get w "PROMPT_URL") = false →
  translate_and_write w f = ([Fetch (content_url f)], Return tt).
Proof.
  intros [content Hc] Hunset.
  unfold translate_and_write, translateText, fetch_text. rewrite Hc.
  rewrite bind_emit, bind_prefixed, bind_ret.
  destruct Hunset as [-> |[-> |[-> | ->]]]; cbn [negb orb];
    rewrite ?orb_true_r; done.
Qed.

(** X8: when a setting of the service is missing, a run over a non-empty
    change set fetches the content of every changed file, never calls the
    service and writes no translation, and then commits the fingerprints
    of the whole change set all the same. *)
Theorem missing_service_setting_commits_untranslated_files (w : World)
    (owner repo directoryPath hashFilePath : string)
    (t0 t1 : list Event) (filesInRepo changedFiles : list FileInfo) :
  configured w owner repo directoryPath hashFilePath →
  getFilesInDirectory w owner repo directoryPath = (t0, Return filesInRepo) →
  loadAndDetectDiffs w filesInRepo hashFilePath = (t1, Return changedFiles) →
  changedFiles ≠ [] →
  (∀ f, f ∈ changedFiles → is_Some (fetch w (content_url f))) →
  truthy (Deno_env_get w "VERTEX_AI_PROJECT_ID") = false
  ∨ truthy (Deno_env_get w "VERTEX_AI_LOCATION") = false
  ∨ truthy (Deno_env_get w "VERTEX_AI_MODEL") = false
  ∨ truthy (Deno_env_get w "PROMPT_URL") = false →
  let commit := JSON_stringify (newHashes changedFiles) in
  let ok := Deno_writeTextFile w hashFilePath commit in
  script w
  = (t0 ++ t1 ++ List.map (fun f => Fetch (content_url f)) changedFiles
     ++ [WriteTextFile hashFilePath commit ok],
     Exit (if ok then 0 else 1)).
Proof.
  intros Hconf Hlist Hdiff Hne Hfetch Hunset commit ok.
  rewrite (main_run _ _ _ _ _ _ _ _ _ Hconf Hlist Hdiff).
  assert ((0 <? length changedFiles)%nat = true) as ->
    by by destruct changedFiles.
  assert (for_of changedFiles (translate_and_write w)
          = (List.map (fun f => Fetch (content_url f)) changedFiles,
             Return tt)) as Hloop.
  { clear Hdiff Hne. induction changedFiles as [|f rest IH]; [done|].
    cbn [for_of List.map].
    rewrite translate_and_write_unset, bind_Return, IH; [done|..|done].
    - intros g Hg. apply Hfetch. by right.
    - apply Hfetch. by left. }
  unfold process_and_commit. rewrite Hloop, bind_Return.
  unfold saveHashToJson, writeTextFile. fold commit. fold ok.
  unfold prefixed. destruct ok; cbn; by rewrite <- !app_assoc.
Qed.

Lemma missing_service_setting_commits_untranslated_files_witness :
  configured no_model_world "owner" "repo" "docs" "hashes.json"
  ∧ truthy (Deno_env_get no_model_world "VERTEX_AI_MODEL") = false
  ∧ script no_model_world
    = ([ReposGet "owner" "repo"; GitGetTree "owner" "repo" "main"]
       ++ [ReadTextFile "hashes.json"]
       ++ [Fetch (content_url docs_a); Fetch (content_url docs_b)]
       ++ [WriteTextFile "hashes.json"
             (JSON_stringify (newHashes docs_listing)) true],
       Exit 0).
Proof.
  assert (configured no_model_world "owner" "repo" "docs" "hashes.json")
    as Hconf by (repeat split; done).
  split; [exact Hconf|]. split; [reflexivity|].
  apply (missing_service_setting_commits_untranslated_files no_model_world
           "owner" "repo" "docs" "hashes.json"
           [ReposGet "owner" "repo"; GitGetTree "owner" "repo" "main"]
           [ReadTextFile "hashes.json"] docs_listing docs_listing Hconf);
    [reflexivity|reflexivity|discriminate| |do 2 right; by left].
  intros f Hf. by eexists.
Defined.

(** ** The commit *)

(** X9: a run writes the fingerprint document at most once, as its last
    request, and ends with status 0 when that write succeeds and with
    status 1 when it fails. *)
Theorem commit_is_the_last_request (w : World) (t : list Event)
    (r : Result unit) (target : string) (record : gmap string string)
    (ok : bool) :
  script w = (t, r) →
  WriteTextFile target (JSON_stringify record) ok ∈ t →
  ∃ before,
    t = before ++ [WriteTextFile target (JSON_stringify record) ok]
    ∧ (∀ target' record' ok',
         WriteTextFile target' (JSON_stringify record') ok' ∉ before)
    ∧ r = Exit (if ok then 0 else 1).
Proof.
  intros Hrun Hin.
  destruct (script_cases w)
    as [(t' & Hs & Hidle)|[(t' & Hs & Hidle)|(t0 & cs & hp & Hidle & Hs)]].
  - rewrite Hs in Hrun. injection Hrun as <- <-.
    by apply (quiet_not_processing _ _ Hidle) in Hin.
  - rewrite Hs in Hrun. injection Hrun as <- <-.
    by apply (quiet_not_processing _ _ Hidle) in Hin.
  - destruct (process_and_commit_outcome w cs hp)
      as (tl & rl & _ & Hc & _ & _ & Hp).
    rewrite Hs, Hp in Hrun. unfold prefixed in Hrun.
    assert (∀ e, e ∈ t0 ++ tl → is_commit e = false) as Hbefore.
    { intros e [He|He]%elem_of_app.
      - apply (quiet_not_processing _ _ Hidle) in He.
        by destruct e as [| | | | |? [] ?].
      - destruct (is_commit e) eqn:Hcommit; [|done].
        by rewrite (elem_of_existsb is_commit _ _ He Hcommit) in Hc. }
    destruct rl as [[]|e|code]; cbn [fst snd] in Hrun;
      injection Hrun as <- <-.
    + rewrite app_assoc in Hin. apply elem_of_app in Hin as [Hin|Hin].
      { by apply Hbefore in Hin. }
      apply list_elem_of_singleton in Hin as [= -> -> ->].
      exists (t0 ++ tl). rewrite app_assoc. split; [done|]. split; [|done].
      intros target' record' ok' Hin'. by apply Hbefore in Hin'.
    + by apply Hbefore in Hin.
    + by apply Hbefore in Hin.
Qed.

Lemma commit_is_the_last_request_witness :
  WriteTextFile "hashes.json" (JSON_stringify (newHashes docs_listing)) true
  ∈ (script fresh_world).1
  ∧ ∃ before,
      (script fresh_world).1
      = before ++ [WriteTextFile "hashes.json"
                     (JSON_stringify (newHashes docs_listing)) true]
      ∧ (∀ target' record' ok',
           WriteTextFile target' (JSON_stringify record') ok' ∉ before)
      ∧ (script fresh_world).2 = Exit 0.
Proof.
  assert (WriteTextFile "hashes.json"
            (JSON_stringify (newHashes docs_listing)) true
          ∈ (script fresh_world).1) as Hin.
  { apply list_elem_of_In. vm_compute. tauto. }
  split; [exact Hin|].
  apply (commit_is_the_last_request fresh_world (script fresh_world).1
           (script fresh_world).2 "hashes.json" (newHashes docs_listing)
           true); [by destruct (script fresh_world)|exact Hin].
Defined.

(** ** Failures while processing *)

(** X10: when the content of one changed file cannot be fetched, the run
    does not end with status 0 and commits nothing: it ends by the
    uncaught failure, or by the exit of an earlier failed write. *)
Theorem unfetchable_file_fails_the_run (w : World)
    (owner repo directoryPath hashFilePath : string)
    (t0 t1 : list Event) (filesInRepo changedFiles : list FileInfo)
    (F : FileInfo) :
  configured w owner repo directoryPath hashFilePath →
  getFilesInDirectory w owner repo directoryPath = (t0, Return filesInRepo) →
  loadAndDetectDiffs w filesInRepo hashFilePath = (t1, Return changedFiles) →
  F ∈ changedFiles →
  fetch w (content_url F) = None →
  ∃ t r, script w = (t, r)
         ∧ (r = Throw Failure ∨ r = Exit 1)
         ∧ exit_status r = 1%Z
         ∧ (∀ target record ok,
              WriteTextFile target (JSON_stringify record) ok ∉ t).
Proof.
  intros Hconf Hlist Hdiff HF Hfetch.
  pose proof (listing_and_load_quiet _ _ _ _ _ _ _ _ _ _ Hlist Hdiff)
    as Hquiet.
  rewrite (main_run _ _ _ _ _ _ _ _ _ Hconf Hlist Hdiff).
  assert ((0 <? length changedFiles)%nat = true) as ->.
  { destruct changedFiles; [by apply elem_of_nil in HF|done]. }
  destruct (process_and_commit_outcome w changedFiles hashFilePath)
    as (tl & rl & Hloop & Hc & _ & Hx & ->).
  destruct (for_of_shape w changedFiles) as (tl' & rl' & Hloop' & _ & He).
  assert (rl' = rl) as -> by congruence.
  assert (rl ≠ Return tt) as Hstop.
  { replace rl with (for_of changedFiles (translate_and_write w)).2
      by by rewrite Hloop.
    apply (for_of_stops w changedFiles F HF).
    unfold translate_and_write, translateText, fetch_text.
    by rewrite Hfetch. }
  assert (∀ target record ok,
            WriteTextFile target (JSON_stringify record) ok
            ∉ (t0 ++ t1) ++ tl) as Hnone.
  { intros target record ok. apply not_commit_elem.
    by rewrite existsb_app, (commit_processes _ Hquiet), Hc. }
  unfold prefixed. destruct rl as [[]|e|code]; cbn [fst snd]; [done|..].
  - rewrite (He e eq_refl). eexists _, _. split; [done|]. by eauto.
  - rewrite (Hx code eq_refl). eexists _, _. split; [done|]. by eauto.
Qed.

Lemma unfetchable_file_fails_the_run_witness :
  configured offline_world "owner" "repo" "docs" "hashes.json"
  ∧ docs_b ∈ docs_listing
  ∧ fetch offline_world (content_url docs_b) = None
  ∧ ∃ t r, script offline_world = (t, r)
           ∧ (r = Throw Failure ∨ r = Exit 1)
           ∧ exit_status r = 1%Z
           ∧ (∀ target record ok,
                WriteTextFile target (JSON_stringify record) ok ∉ t).
Proof.
  assert (configured offline_world "owner" "repo" "docs" "hashes.json")
    as Hconf by (repeat split; done).
  assert (docs_b ∈ docs_listing) as Hin
    by (apply list_elem_of_In; cbn; tauto).
  split; [exact Hconf|]. split; [exact Hin|]. split; [reflexivity|].
  apply (unfetchable_file_fails_the_run offline_world
           "owner" "repo" "docs" "hashes.json"
           [ReposGet "owner" "repo"; GitGetTree "owner" "repo" "main"]
           [ReadTextFile "hashes.json"] docs_listing docs_listing docs_b
           Hconf); [reflexivity|reflexivity|exact Hin|reflexivity].
Defined.

Lemma output_targets_quiet t :
  forallb (fun e => negb (processes e)) t = true → output_targets t = [].
Proof.
  induction t as [|e t IH]; [done|]. cbn [forallb].
  intros [He Ht]%andb_prop. unfold output_targets in *. cbn [flat_map].
  rewrite (IH Ht). by destruct e as [| | | | |? [] ?].
Qed.

(** X11: translations are written in the order of the change set: the
    files a run writes translations to, failed writes included, form a
    subsequence of the paths of the changed files. *)
Theorem outputs_follow_the_change_set (w : World)
    (owner repo directoryPath hashFilePath : string)
    (t0 t1 : list Event) (filesInRepo changedFiles : list FileInfo) :
  configured w owner repo directoryPath hashFilePath →
  getFilesInDirectory w owner repo directoryPath = (t0, Return filesInRepo) →
  loadAndDetectDiffs w filesInRepo hashFilePath = (t1, Return changedFiles) →
  output_targets (script w).1 `sublist_of` List.map path changedFiles.
Proof.
  intros Hconf Hlist Hdiff.
  pose proof (listing_and_load_quiet _ _ _ _ _ _ _ _ _ _ Hlist Hdiff)
    as Hquiet.
  rewrite (main_run _ _ _ _ _ _ _ _ _ Hconf Hlist Hdiff).
  destruct (0 <? length changedFiles)%nat; cbn [fst];
    [|rewrite (output_targets_quiet _ Hquiet); apply sublist_nil_l].
  destruct (process_and_commit_outcome w changedFiles hashFilePath)
    as (tl & rl & Hloop & _ & _ & _ & ->).
  destruct (for_of_shape w changedFiles) as (tl' & rl' & Hloop' & Hsub & _).
  assert (tl' = tl) as -> by congruence.
  unfold prefixed.
  destruct rl as [[]|e|code]; cbn [fst];
    rewrite (output_targets_app (t0 ++ t1)),
      (output_targets_quiet _ Hquiet), ?output_targets_app; cbn;
    by rewrite ?app_nil_r.
Qed.

Lemma outputs_follow_the_change_set_witness :
  configured readonly_world "owner" "repo" "docs" "hashes.json"
  ∧ output_targets (script readonly_world).1 = ["docs/a.md"; "docs/b.md"]
  ∧ output_targets (script readonly_world).1
    `sublist_of` List.map path docs_listing.
Proof.
  split; [apply sample_configured|]. split; [reflexivity|].
  apply (outputs_follow_the_change_set readonly_world
           "owner" "repo" "docs" "hashes.json"
           [ReposGet "owner" "repo"; GitGetTree "owner" "repo" "main"]
           [ReadTextFile "hashes.json"] docs_listing docs_listing);
    [apply sample_configured|reflexivity|reflexivity].
Defined.

(** ** The record of fingerprints *)

Lemma fold_insert_last (cs : list FileInfo) (acc : gmap string string) p :
  fold_left (fun acc f => <[path f := sha f]> acc) cs acc !! p
  = match last (List.filter (fun f => bool_decide (path f = p)) cs) with
    | Some f => Some (sha f)
    | None => acc !! p
    end.
Proof.
  revert acc. induction cs as [|G cs IH]; intros acc; [done|].
  cbn [fold_left List.filter]. rewrite IH. case_bool_decide as HG.
  - rewrite last_cons.
    destruct (last _); [done|]. by rewrite <- HG, lookup_insert_eq.
  - destruct (last _); [done|]. by rewrite lookup_insert_ne.
Qed.

(** X12: the record built from a change set maps a path to the fingerprint
    of the last changed file with that path, and has entries for the paths
    of the changed files only. *)
Theorem newHashes_records_the_last_fingerprint
    (changedFiles : list FileInfo) (p : string) :
  newHashes changedFiles !! p
  = sha <$> last (List.filter (fun f => bool_decide (path f = p))
                    changedFiles)
  ∧ (is_Some (newHashes changedFiles !! p) ↔ p ∈ List.map path changedFiles).
Proof.
  assert (newHashes changedFiles !! p
          = sha <$> last (List.filter (fun f => bool_decide (path f = p))
                            changedFiles)) as Hlast.
  { unfold newHashes. rewrite fold_insert_last. by destruct (last _). }
  split; [done|]. rewrite Hlast, fmap_is_Some. split.
  - intros [f Hf]. apply last_Some_elem_of, list_elem_of_In in Hf.
    apply filter_In in Hf as [Hf <-%bool_decide_eq_true].
    apply list_elem_of_fmap_2. by apply list_elem_of_In.
  - intros (f & -> & Hf)%list_elem_of_fmap.
    destruct (last _) eqn:Hnone; [done|]. apply last_None in Hnone.
    assert (In f (List.filter (fun g => bool_decide (path g = path f))
                    changedFiles)) as Hin.
    { apply filter_In. split; [by apply list_elem_of_In|].
      by apply bool_decide_eq_true. }
    by rewrite Hnone in Hin.
Qed.

(** ** Candidates without parts *)

(** X13: a response whose candidates hold no part at all is not taken for
    a missing result: the run writes the file with the empty text. *)
Theorem candidates_without_parts_write_an_empty_file (w : World)
    (file : FileInfo) (request : string) (resp : GenerateContentResponse)
    (c : Candidate) (cs : list Candidate) :
  responds w (content_url file) request resp →
  candidates resp = Some (c :: cs) →
  Forall (fun candidate => parts candidate = []) (c :: cs) →
  let ok := Deno_writeTextFile w (path file) (Text "") in
  translate_and_write w file
  = (translation_requests w (content_url file) request
     ++ [WriteTextFile (path file) (Text "") ok],
     if ok then Return tt else Exit 1).
Proof.
  intros Hresp Hcs Hparts ok.
  assert (∀ l, Forall (fun candidate => parts candidate = []) l →
               text_parts l = []) as Hall.
  { unfold text_parts. induction 1 as [|candidate rest Hc _ IH]; [done|].
    cbn [flat_map]. by rewrite Hc, IH. }
  pose proof (Hall _ Hparts) as Hnone.
  unfold translate_and_write.
  rewrite (translateText_responds w _ _ _ Hresp), Hcs, Hnone, bind_Return.
  change (writeFile w _ _)
    with (try_catch
            (emit (WriteTextFile (path file) (Text "") ok) ;;;
             if ok then ret tt else throw Failure)
            (fun _ => Deno_exit 1)).
  by destruct ok.
Qed.

Lemma candidates_without_parts_write_an_empty_file_witness :
  responds partless_world (content_url docs_a) (request_for docs_a)
    {| candidates := Some [ {| parts := [] |} ] |}
  ∧ translate_and_write partless_world docs_a
    = (translation_requests partless_world (content_url docs_a)
         (request_for docs_a)
       ++ [WriteTextFile "docs/a.md" (Text "") true],
       Return tt).
Proof.
  assert (responds partless_world (content_url docs_a) (request_for docs_a)
            {| candidates := Some [ {| parts := [] |} ] |}) as Hresp.
  { exists (content_url docs_a), "prompt". repeat split; reflexivity. }
  split; [exact Hresp|].
  apply (candidates_without_parts_write_an_empty_file partless_world docs_a
           (request_for docs_a) {| candidates := Some [ {| parts := [] |} ] |}
           {| parts := [] |} [] Hresp); [reflexivity|].
  by repeat constructor.
Defined.

(** * The second variant of the script *)

Section Part000.

Variable w : World.
Variable stringify : GenerateContentResponse → string.





End Part000.

Section Part000_run.

Variable w : World.
Variable stringify : GenerateContentResponse → string.

Lemma Part000_saveHashToJson data hashFilePath :
  Part000.saveHashToJson w data hashFilePath
  = ([WriteTextFile hashFilePath data
        (Deno_writeTextFile w hashFilePath data)], Return tt).
Proof.
  unfold Part000.saveHashToJson, writeTextFile.
  by destruct (Deno_writeTextFile w hashFilePath data).
Qed.

Lemma Part000_main_listed owner repo directoryPath hashFilePath t0
    filesInRepo :
  Part000_configured w owner repo directoryPath hashFilePath →
  Part000.getFilesInDirectory w owner repo directoryPath
  = (t0, Return (Some filesInRepo)) →
  Part000.main w stringify
  = prefixed t0
      (let! changedFiles :=
         Part000.loadAndDetectDiffs w filesInRepo hashFilePath in
       for_of changedFiles (Part000.translate_and_write w stringify) ;;;
       Part000.saveHashToJson w (JSON_stringify (newHashes changedFiles))
         hashFilePath).
Proof.
  intros (Ho & Ho' & Hr & Hr' & Hd & Hd' & Hh & Hh') Hlist.
  unfold Part000.main. rewrite Ho, Hr, Hd, Hh, !truthy_Some by done.
  cbn [negb orb].
  change (narrowed (Some owner)) with owner.
  change (narrowed (Some repo)) with repo.
  change (narrowed (Some directoryPath)) with directoryPath.
  change (narrowed (Some hashFilePath)) with hashFilePath.
  by rewrite Hlist, bind_Return.
Qed.

Lemma Part000_translateText_responds url request resp :
  responds w url request resp →
  Part000.translateText w stringify url
  = (translation_requests w url request, Return (Some (stringify resp))).
Proof.
  intros (content & prompt & Hc & Hproj & Hloc & Hmodel & Hurl & Hp & -> & Hg).
  unfold Part000.translateText, fetch_text.
  rewrite Hc, Hproj, Hloc, Hmodel, Hurl, Hp. cbn [negb orb].
  rewrite bind_emit, bind_prefixed, bind_ret.
  rewrite bind_emit, bind_prefixed, bind_ret.
  by rewrite Hg, bind_emit, bind_prefixed, bind_ret.
Qed.

Lemma Part000_translate_and_write_responds file request resp :
  responds w (content_url file) request resp →
  Part000.translate_and_write w stringify file
  = (translation_requests w (content_url file) request
     ++ [WriteTextFile (path file) (Text (stringify resp))
           (Deno_writeTextFile w (path file) (Text (stringify resp)))],
     Return tt).
Proof.
  intros Hresp. unfold Part000.translate_and_write.
  rewrite (Part000_translateText_responds _ _ _ Hresp), bind_Return.
  unfold Part000.writeFile, writeTextFile.
  by destruct (Deno_writeTextFile w _ _).
Qed.

End Part000_run.


(** X15: when the fingerprint file cannot be read or is not JSON, the
    second variant takes the change set to be empty: it translates nothing
    and overwrites the document with the empty mapping. *)
Theorem Part000_load_error_resets_the_document (w : World)
    (stringify : GenerateContentResponse → string)
    (owner repo directoryPath hashFilePath : string)
    (t0 : list Event) (filesInRepo : list FileInfo) :
  Part000_configured w owner repo directoryPath hashFilePath →
  Part000.getFilesInDirectory w owner repo directoryPath
  = (t0, Return (Some filesInRepo)) →
  (∃ e, Deno_readTextFile w hashFilePath = inl e)
  ∨ Deno_readTextFile w hashFilePath = inr NotJSON →
  Part000.main w stringify
  = (t0 ++ [ReadTextFile hashFilePath;
            WriteTextFile hashFilePath (JSON_stringify ∅)
              (Deno_writeTextFile w hashFilePath (JSON_stringify ∅))],
     Return tt).
Proof.
  intros Hconf Hlist Hread.
  rewrite (Part000_main_listed _ _ _ _ _ _ _ _ Hconf Hlist).
  assert (Part000.loadAndDetectDiffs w filesInRepo hashFilePath
          = ([ReadTextFile hashFilePath], Return [])) as ->.
  { unfold Part000.loadAndDetectDiffs, readTextFile. rewrite bind_emit.
    by destruct Hread as [[e ->]| ->]. }
  rewrite bind_Return. cbn [for_of]. rewrite bind_ret.
  by rewrite Part000_saveHashToJson.
Qed.

Lemma Part000_load_error_resets_the_document_witness :
  Part000_configured part000_garbled_world "owner" "repo" "docs"
    "hashes.json"
  ∧ Part000.getFilesInDirectory part000_garbled_world "owner" "repo" "docs"
    = ([ReposGet "owner" "repo"; GitGetTree "owner" "repo" "main"],
       Return (Some docs_listing))
  ∧ Deno_readTextFile part000_garbled_world "hashes.json" = inr NotJSON
  ∧ Part000.main part000_garbled_world count_candidates
    = ([ReposGet "owner" "repo"; GitGetTree "owner" "repo" "main"]
       ++ [ReadTextFile "hashes.json";
           WriteTextFile "hashes.json" (JSON_stringify ∅) true],
       Return tt).
Proof.
  assert (Part000_configured part000_garbled_world "owner" "repo" "docs"
            "hashes.json") as Hconf by (repeat split; done).
  split; [exact Hconf|]. split; [reflexivity|]. split; [reflexivity|].
  apply (Part000_load_error_resets_the_document part000_garbled_world
           count_candidates "owner" "repo" "docs" "hashes.json"
           [ReposGet "owner" "repo"; GitGetTree "owner" "repo" "main"]
           docs_listing Hconf); [reflexivity|by right].
Defined.

(** X16: in the second variant a failed write stops nothing.  When the
    service answers for every changed file, each of them is written in
    turn with the serialised response, whether or not the writes succeed,
    and the fingerprints of the whole change set are committed; the run
    ends with status 0. *)
Theorem Part000_write_failures_do_not_stop_the_run (w : World)
    (stringify : GenerateContentResponse → string)
    (owner repo directoryPath hashFilePath : string)
    (t0 t1 : list Event) (filesInRepo changedFiles : list FileInfo)
    (request_of : FileInfo → string)
    (response_of : FileInfo → GenerateContentResponse) :
  Part000_configured w owner repo directoryPath hashFilePath →
  Part000.getFilesInDirectory w owner repo directoryPath
  = (t0, Return (Some filesInRepo)) →
  Part000.loadAndDetectDiffs w filesInRepo hashFilePath
  = (t1, Return changedFiles) →
  (∀ f, f ∈ changedFiles →
        responds w (content_url f) (request_of f) (response_of f)) →
  Part000.main w stringify
  = (t0 ++ t1
     ++ flat_map (fun f =>
          translation_requests w (content_url f) (request_of f)
          ++ [WriteTextFile (path f) (Text (stringify (response_of f)))
                (Deno_writeTextFile w (path f)
                   (Text (stringify (response_of f))))]) changedFiles
     ++ [WriteTextFile hashFilePath (JSON_stringify (newHashes changedFiles))
           (Deno_writeTextFile w hashFilePath
              (JSON_stringify (newHashes changedFiles)))],
     Return tt).
Proof.
  intros Hconf Hlist Hdiff Hresp.
  rewrite (Part000_main_listed _ _ _ _ _ _ _ _ Hconf Hlist), Hdiff.
  rewrite bind_Return.
  assert (for_of changedFiles (Part000.translate_and_write w stringify)
          = (flat_map (fun f =>
               translation_requests w (content_url f) (request_of f)
               ++ [WriteTextFile (path f) (Text (stringify (response_of f)))
                     (Deno_writeTextFile w (path f)
                        (Text (stringify (response_of f))))]) changedFiles,
             Return tt)) as ->.
  { clear Hdiff. induction changedFiles as [|f rest IH]; [done|].
    cbn [for_of flat_map].
    rewrite (Part000_translate_and_write_responds w stringify f
               (request_of f) (response_of f)) by (apply Hresp; by left).
    rewrite bind_Return, IH; [done|]. intros g Hg. apply Hresp. by right. }
  rewrite bind_Return, Part000_saveHashToJson. unfold prefixed. cbn [fst snd].
  done.
Qed.

Lemma Part000_write_failures_do_not_stop_the_run_witness :
  Part000_configured part000_readonly_world "owner" "repo" "docs"
    "hashes.json"
  ∧ Deno_writeTextFile part000_readonly_world "docs/b.md" (Text "1") = false
  ∧ Part000.main part000_readonly_world count_candidates
    = ([ReposGet "owner" "repo"; GitGetTree "owner" "repo" "main"]
       ++ [ReadTextFile "hashes.json"]
       ++ [Fetch (content_url docs_a); Fetch "prompt";
           GenerateContent "project" "location" "model" 8192
             (request_for docs_a);
           WriteTextFile "docs/a.md" (Text "1") true;
           Fetch (content_url docs_b); Fetch "prompt";
           GenerateContent "project" "location" "model" 8192
             (request_for docs_b);
           WriteTextFile "docs/b.md" (Text "1") false]
       ++ [WriteTextFile "hashes.json"
             (JSON_stringify (newHashes docs_listing)) true],
       Return tt).
Proof.
  assert (Part000_configured part000_readonly_world "owner" "repo" "docs"
            "hashes.json") as Hconf by (repeat split; done).
  split; [exact Hconf|]. split; [reflexivity|].
  apply (Part000_write_failures_do_not_stop_the_run part000_readonly_world
           count_candidates "owner" "repo" "docs" "hashes.json"
           [ReposGet "owner" "repo"; GitGetTree "owner" "repo" "main"]
           [ReadTextFile "hashes.json"] docs_listing docs_listing
           request_for (fun _ => {| candidates := answer ["translated"] |})
           Hconf); [reflexivity|reflexivity|].
  intros f Hf. exists (content_url f), "prompt". repeat split; reflexivity.
Defined.



(** * Whole runs of the script *)



(** X19: when the service returns candidates for every changed file and
    every write succeeds, the run translates the changed files one after
    the other in the order of the change set, writes each translation to
    the path of its file, commits the fingerprints of the change set last
    and ends with status 0. *)
Theorem successful_run_translates_and_commits (w : World)
    (owner repo directoryPath hashFilePath : string)
    (t0 t1 : list Event) (filesInRepo changedFiles : list FileInfo)
    (request_of : FileInfo → string)
    (candidates_of : FileInfo → list Candidate) :
  configured w owner repo directoryPath hashFilePath →
  getFilesInDirectory w owner repo directoryPath = (t0, Return filesInRepo) →
  loadAndDetectDiffs w filesInRepo hashFilePath = (t1, Return changedFiles) →
  changedFiles ≠ [] →
  (∀ f, f ∈ changedFiles →
        candidates_of f ≠ []
        ∧ responds w (content_url f) (request_of f)
            {| candidates := Some (candidates_of f) |}
        ∧ Deno_writeTextFile w (path f)
            (Text (join LF (text_parts (candidates_of f)))) = true) →
  Deno_writeTextFile w hashFilePath
    (JSON_stringify (newHashes changedFiles)) = true →
  script w
  = (t0 ++ t1
     ++ flat_map (fun f =>
          translation_requests w (content_url f) (request_of f)
          ++ [WriteTextFile (path f)
                (Text (join LF (text_parts (candidates_of f)))) true])
          changedFiles
     ++ [WriteTextFile hashFilePath
           (JSON_stringify (newHashes changedFiles)) true],
     Exit 0).
Proof.
  intros Hconf Hlist Hdiff Hne Hfiles Hcommit.
  rewrite (main_run _ _ _ _ _ _ _ _ _ Hconf Hlist Hdiff).
  assert ((0 <? length changedFiles)%nat = true) as ->
    by by destruct changedFiles.
  assert (for_of changedFiles (translate_and_write w)
          = (flat_map (fun f =>
               translation_requests w (content_url f) (request_of f)
               ++ [WriteTextFile (path f)
                     (Text (join LF (text_parts (candidates_of f)))) true])
               changedFiles,
             Return tt)) as Hloop.
  { clear Hdiff Hne Hcommit.
    induction changedFiles as [|f rest IH]; [done|].
    destruct (Hfiles f) as (Hcs & Hresp & Hok); [by left|].
    cbn [for_of flat_map]. unfold translate_and_write at 1.
    rewrite (translateText_responds w _ _ _ Hresp). cbn [candidates].
    destruct (candidates_of f) as [|c cs] eqn:Hcand; [done|].
    rewrite bind_Return. unfold writeFile, writeTextFile. rewrite Hok.
    cbn [try_catch bind emit ret prefixed fst snd app].
    rewrite IH; [|intros g Hg; apply Hfiles; by right].
    reflexivity. }
  unfold process_and_commit, saveHashToJson, writeTextFile.
  rewrite Hloop, bind_Return, Hcommit. unfold prefixed.
  cbn [try_catch bind emit ret Deno_exit fst snd].
  by rewrite ?app_nil_r, <- ?app_assoc.
Qed.

Lemma successful_run_translates_and_commits_witness :
  configured fresh_world "owner" "repo" "docs" "hashes.json"
  ∧ script fresh_world
    = ([ReposGet "owner" "repo"; GitGetTree "owner" "repo" "main"]
       ++ [ReadTextFile "hashes.json"]
       ++ [Fetch (content_url docs_a); Fetch "prompt";
           GenerateContent "project" "location" "model" 8192
             (request_for docs_a);
           WriteTextFile "docs/a.md" (Text "translated") true;
           Fetch (content_url docs_b); Fetch "prompt";
           GenerateContent "project" "location" "model" 8192
             (request_for docs_b);
           WriteTextFile "docs/b.md" (Text "translated") true]
       ++ [WriteTextFile "hashes.json"
             (JSON_stringify (newHashes docs_listing)) true],
       Exit 0).
Proof.
  split; [apply sample_configured|].
  apply (successful_run_translates_and_commits fresh_world
           "owner" "repo" "docs" "hashes.json"
           [ReposGet "owner" "repo"; GitGetTree "owner" "repo" "main"]
           [ReadTextFile "hashes.json"] docs_listing docs_listing
           request_for
           (fun _ => [ {| parts := [ {| text := Some "translated" |} ] |} ]));
    [apply sample_configured|reflexivity|reflexivity|discriminate
    | |reflexivity].
  intros f Hf. split; [discriminate|]. split; [|reflexivity].
  exists (content_url f), "prompt". repeat split; reflexivity.
Defined.
